(** * A shallow embedding of [app.py], the Flask journal application

    The request handlers ([register], [login], [logout], [index]), the
    redirect check [is_safe_url], the completion-service client
    [get_xai_response] and the start-up block are written as functions over
    an explicit database state.  Everything the handlers take from outside
    the process (the submitted form, the salt of the password hash, the
    clock, the answer of the completion service) is an argument. *)

From Stdlib Require Import List ZArith NArith Bool Ascii String Lia.
From Stdlib Require Import Permutation Sorted.
Import ListNotations.

#[local] Set Warnings "-register-all".

(** ** Python strings

    A Python [str] is a sequence of Unicode code points; [len] counts code
    points. *)

Definition str := list N.

Definition lit (s : string) : str :=
  List.map N_of_ascii (list_ascii_of_string s).

Definition len (s : str) : nat := List.length s.

Definition str_eqb (a b : str) : bool :=
  if list_eq_dec N.eq_dec a b then true else false.

(** [repeat_char c n] is the Python expression [c * n]. *)
Definition repeat_char (c : string) (n : nat) : str :=
  List.concat (List.repeat (lit c) n).

(** Truth value of an [Optional[str]]: [None] and the empty string are
    false. *)
Definition truthy (o : option str) : bool :=
  match o with
  | Some (_ :: _) => true
  | _ => false
  end.

(** [str.isspace] on one code point (CPython's [_PyUnicode_IsWhitespace]). *)
Definition isspace (c : N) : bool :=
  ((0x09 <=? c) && (c <=? 0x0D) || (0x1C <=? c) && (c <=? 0x20)
   || (c =? 0x85) || (c =? 0xA0) || (c =? 0x1680)
   || (0x2000 <=? c) && (c <=? 0x200A)
   || (c =? 0x2028) || (c =? 0x2029) || (c =? 0x202F) || (c =? 0x205F)
   || (c =? 0x3000))%N.

Fixpoint lstrip (s : str) : str :=
  match s with
  | c :: s' => if isspace c then lstrip s' else s
  | [] => []
  end.

Definition rstrip (s : str) : str := rev (lstrip (rev s)).

(** [s.strip()] with no argument. *)
Definition strip (s : str) : str := rstrip (lstrip s).

(** ** Exceptions and results *)

(** The exception classes that the modelled code can meet.  The first five
    are subclasses of [requests.exceptions.RequestException];
    [KeyboardInterrupt] and [SystemExit] derive from [BaseException] only. *)
Inductive exn : Type :=
| ConnectionError
| Timeout
| TooManyRedirects
| HTTPError
| JSONDecodeError
| KeyError
| IndexError
| TypeError
| AttributeError
| ValueError
| OperationalError
| KeyboardInterrupt
| SystemExit.

Definition is_RequestException (e : exn) : bool :=
  match e with
  | ConnectionError | Timeout | TooManyRedirects | HTTPError
  | JSONDecodeError => true
  | _ => false
  end.

Definition is_Exception (e : exn) : bool :=
  match e with
  | KeyboardInterrupt | SystemExit => false
  | _ => true
  end.

Inductive result (A : Type) : Type :=
| Return (a : A)
| Raise (e : exn).

Arguments Return {A} a.
Arguments Raise {A} e.

Definition bind {A B} (m : result A) (k : A -> result B) : result B :=
  match m with
  | Return a => k a
  | Raise e => Raise e
  end.

Notation "x <- m ;; k" := (bind m (fun x => k))
  (at level 61, m at next level, right associativity).

(** [try: body  except cls: handler]. *)
Definition try_except {A} (body : result A) (cls : exn -> bool)
    (handler : exn -> result A) : result A :=
  match body with
  | Return a => Return a
  | Raise e => if cls e then handler e else Raise e
  end.

(** ** JSON values as Python objects

    What [response.json()] returns.  A [dict] is the list of its items; its
    keys are distinct. *)

Inductive json : Type :=
| JNone
| JBool (b : bool)
| JInt (n : Z)
| JFloat (repr : str)
| JStr (s : str)
| JList (l : list json)
| JDict (d : list (str * json)).

Fixpoint assoc {V} (k : str) (d : list (str * V)) : option V :=
  match d with
  | [] => None
  | (k', v) :: d' => if str_eqb k' k then Some v else assoc k d'
  end.

(** [v[k]] for a [str] key. *)
Definition getitem_key (v : json) (k : str) : result json :=
  match v with
  | JDict d =>
      match assoc k d with
      | Some x => Return x
      | None => Raise KeyError
      end
  | _ => Raise TypeError
  end.

(** [v[0]]. *)
Definition getitem_0 (v : json) : result json :=
  match v with
  | JList (x :: _) => Return x
  | JList [] => Raise IndexError
  | JStr (c :: _) => Return (JStr [c])
  | JStr [] => Raise IndexError
  | JDict _ => Raise KeyError
  | _ => Raise TypeError
  end.

(** [v.strip()]. *)
Definition call_strip (v : json) : result str :=
  match v with
  | JStr s => Return (strip s)
  | _ => Raise AttributeError
  end.

(** ** Data model *)

Module User.
(** Modelled from the spec: the [User] table of [models.py], which is not
    part of the sources: an identifier, the username and the password
    hash.  No column carries a length limit. *)
Record t : Type := { id : nat; username : str; password_hash : str }.
End User.

Module Entry.
(** Modelled from the spec: the [Entry] table of [models.py], which is not
    part of the sources: an identifier, the owning user, the category, the
    description, the generated reply and the creation timestamp. *)
Record t : Type :=
  { id : nat;
    user_id : nat;
    addiction_type : str;
    description : str;
    response : str;
    created_at : Z }.
End Entry.

Record database : Type :=
  { users : list User.t;
    entries : list Entry.t }.

(** Primary key given to a row by [db.session.add] and [commit]. *)
Definition next_id (ids : list nat) : nat := S (list_max ids).

(** [User.query.filter_by(username=name).first()]. *)
Definition first_by_username (name : str) (us : list User.t) : option User.t :=
  find (fun u => str_eqb (User.username u) name) us.

(** [User.query.get(uid)]. *)
Definition load_user (db : database) (uid : nat) : option User.t :=
  find (fun u => Nat.eqb (User.id u) uid) (users db).

(** [.order_by(Entry.created_at.desc())]: insertion into a list that is
    already in descending order of [created_at]. *)
Fixpoint insert_desc (e : Entry.t) (l : list Entry.t) : list Entry.t :=
  match l with
  | [] => [e]
  | x :: l' =>
      if (Entry.created_at x <? Entry.created_at e)%Z then e :: l
      else x :: insert_desc e l'
  end.

Definition order_by_created_at_desc (l : list Entry.t) : list Entry.t :=
  fold_right insert_desc [] l.

(** [Entry.query.filter_by(user_id=uid)]. *)
Definition filter_by_user_id (uid : nat) (l : list Entry.t) : list Entry.t :=
  filter (fun e => Nat.eqb (Entry.user_id e) uid) l.

(** ** Requests, responses and the outside world *)

Inductive http_method : Type := GET | HEAD | POST.

Record request : Type :=
  { method : http_method;
    form : list (str * str);
    args : list (str * str);
    host_url : str;
    session_user_id : option nat }.

(** [request.form.get(key)] and [request.args.get(key)]. *)
Definition get (key : string) (d : list (str * str)) : option str :=
  assoc (lit key) d.

(** The string behind an [Optional[str]] that has been tested for truth. *)
Definition value (o : option str) : str :=
  match o with
  | Some s => s
  | None => []
  end.

Inductive endpoint : Type := ep_register | ep_login | ep_logout | ep_index.

(** [url_for], by the route decorators. *)
Definition url_for (e : endpoint) : str :=
  match e with
  | ep_register => lit "/register"
  | ep_login => lit "/login"
  | ep_logout => lit "/logout"
  | ep_index => lit "/"
  end.

Inductive response : Type :=
| Redirect (location : str)
| Render (template : str) (context : list (string * list Entry.t))
| Unauthorized.

(** What a handler leaves behind: the committed database, the identity held
    by the session, the messages passed to [flash] and the response. *)
Record outcome : Type :=
  { db_after : database;
    session_after : option nat;
    flashes : list (str * str);
    resp : response }.

Definition flash (message category : string) : str * str :=
  (lit message, lit category).

(** The answer of the completion service as [requests] presents it:
    [body] is [None] when the payload is not JSON. *)
Record http_response : Type :=
  { status_code : Z;
    body : option json }.

(** What a request takes from outside the process. *)
Record world : Type :=
  { now : Z;
    salt : str;
    post : str -> result http_response }.

(** [response.raise_for_status()]. *)
Definition raise_for_status (r : http_response) : result unit :=
  if ((400 <=? status_code r) && (status_code r <? 600))%Z
  then Raise HTTPError else Return tt.

(** [response.json()]. *)
Definition json_of (r : http_response) : result json :=
  match body r with
  | Some j => Return j
  | None => Raise JSONDecodeError
  end.

(** Components of [urllib.parse.urlparse]'s result. *)
Record ParseResult : Type :=
  { scheme : str;
    netloc : str;
    path : str;
    params : str;
    query : str;
    fragment : str }.

(** ** A small instance of the library functions

    The handlers below take [urlparse], [urljoin] and the two password-hash
    functions of werkzeug as arguments.  This module gives one instance of
    them, enough to evaluate the handlers when the host URL is
    [scheme://host/] and the target is an absolute [http(s)] URL, a
    network-path reference [//host/path] or a path. *)

Module Demo.

Fixpoint strip_prefix (p s : str) : option str :=
  match p, s with
  | [], _ => Some s
  | a :: p', b :: s' => if N.eqb a b then strip_prefix p' s' else None
  | _ :: _, [] => None
  end.

Fixpoint until_slash (s : str) : str * str :=
  match s with
  | [] => ([], [])
  | c :: s' =>
      if N.eqb c 47 then ([], s)
      else let (h, t) := until_slash s' in (c :: h, t)
  end.

Definition with_scheme (sch : string) (rest : str) : ParseResult :=
  let (h, t) := until_slash rest in
  {| scheme := lit sch; netloc := h; path := t;
     params := []; query := []; fragment := [] |}.

Definition urlparse (s : str) : ParseResult :=
  match strip_prefix (lit "https://") s, strip_prefix (lit "http://") s with
  | Some r, _ => with_scheme "https" r
  | None, Some r => with_scheme "http" r
  | None, None =>
      {| scheme := []; netloc := []; path := s;
         params := []; query := []; fragment := [] |}
  end.

Definition urljoin (base url : str) : str :=
  match url with
  | [] => base
  | c :: rest =>
      match scheme (urlparse url) with
      | _ :: _ => url
      | [] =>
          if N.eqb c 47 then
            match rest with
            | c' :: _ =>
                if N.eqb c' 47 then scheme (urlparse base) ++ lit ":" ++ url
                else removelast base ++ url
            | [] => base
            end
          else base ++ url
      end
  end.

Definition generate_password_hash (salt password : str) : str :=
  salt ++ lit "$" ++ rev password.

Definition check_password_hash (pwhash password : str) : bool :=
  match strip_prefix (rev (lit "$" ++ rev password)) (rev pwhash) with
  | Some _ => true
  | None => false
  end.

(** Sample data: two users, three entries, and the requests and service
    answers that the examples run on. *)

Definition alice : User.t :=
  {| User.id := 1; User.username := lit "alice";
     User.password_hash := generate_password_hash (lit "na") (lit "secret1") |}.

Definition bob : User.t :=
  {| User.id := 2; User.username := lit "bob";
     User.password_hash := generate_password_hash (lit "cl") (lit "hunter22") |}.

Definition entry (i owner : nat) (text : string) (time : Z) : Entry.t :=
  {| Entry.id := i; Entry.user_id := owner;
     Entry.addiction_type := lit "alcohol"; Entry.description := lit text;
     Entry.response := lit "You are not alone."; Entry.created_at := time |}.

Definition db0 : database :=
  {| users := [alice; bob];
     entries := [entry 1 1 "monday" 10; entry 2 2 "tuesday" 20;
                 entry 3 1 "friday" 30] |}.

Definition field (k : string) (v : str) : str * str := (lit k, v).

Definition request_of (m : http_method) (fields query : list (str * str))
    (session : option nat) : request :=
  {| method := m; form := fields; args := query;
     host_url := lit "http://localhost:5000/"; session_user_id := session |}.

Definition world_of (answer : result http_response) : world :=
  {| now := 40; salt := lit "pe"; post := fun _ => answer |}.

(** A well-formed answer of the completion service with the given
    content. *)
Definition completion (content : str) : http_response :=
  {| status_code := 200;
     body :=
       Some (JDict
         [(lit "id", JStr (lit "c1"));
          (lit "choices",
           JList [JDict [(lit "index", JInt 0);
                         (lit "message",
                          JDict [(lit "role", JStr (lit "assistant"));
                                 (lit "content", JStr content)])]])]) |}.

Definition unavailable : http_response :=
  {| status_code := 503; body := None |}.

Definition submission (cat desc : str) : request :=
  request_of POST [field "addiction_type" cat; field "description" desc] []
    (Some 1).

Definition credentials (u p : str) (query : list (str * str)) : request :=
  request_of POST [field "username" u; field "password" p] query None.

End Demo.

(** ** The application *)

Definition fallback : str :=
  lit "I'm sorry, I'm having trouble responding right now. Please reach out to a professional.".

Section App.

#[local] Set Default Proof Using "Type".

(** [werkzeug.security] and [urllib.parse]. *)
Variable generate_password_hash : str -> str -> str.
Variable check_password_hash : str -> str -> bool.
Variable urlparse : str -> ParseResult.
Variable urljoin : str -> str -> str.

(** Module level: the API key is read, then the tables are created. *)
Definition startup (XAI_API_KEY : option str) (create_all : result unit)
  : result unit :=
  if negb (truthy XAI_API_KEY) then Raise ValueError
  else try_except create_all is_Exception (fun e => Raise e).

Definition is_safe_url (req : request) (target : str) : bool :=
  let ref_url := urlparse (host_url req) in
  let test_url := urlparse (urljoin (host_url req) target) in
  (str_eqb (scheme test_url) (lit "http")
   || str_eqb (scheme test_url) (lit "https"))
  && str_eqb (netloc ref_url) (netloc test_url).

(** [j["choices"][0]["message"]["content"]]. *)
Definition message_content (j : json) : result json :=
  choices <- getitem_key j (lit "choices") ;;
  choice <- getitem_0 choices ;;
  message <- getitem_key choice (lit "message") ;;
  getitem_key message (lit "content").

(** The body of the [try] block of [get_xai_response]. *)
Definition completion_call (w : world) (user_input : str) : result str :=
  r <- post w user_input ;;
  _ <- raise_for_status r ;;
  j <- json_of r ;;
  content <- message_content j ;;
  call_strip content.

(** The handler prints the exception and returns the fallback; what is
    printed is not part of the modelled state. *)
Definition get_xai_response (w : world) (user_input : str) : result str :=
  try_except (completion_call w user_input)
    is_RequestException
    (fun _ => Return fallback).

Definition unchanged (db : database) (req : request)
    (fl : list (str * str)) (r : response) : outcome :=
  {| db_after := db; session_after := session_user_id req;
     flashes := fl; resp := r |}.

Definition register (db : database) (req : request) (w : world) : outcome :=
  match method req with
  | POST =>
      let username := get "username" (form req) in
      let password := get "password" (form req) in
      if negb (truthy username) || negb (truthy password) then
        unchanged db req
          [flash "Username and password are required." "error"]
          (Redirect (url_for ep_register))
      else if (len (value username) <? 3) || (len (value password) <? 6) then
        unchanged db req
          [flash "Username must be at least 3 characters and password at least 6 characters." "error"]
          (Redirect (url_for ep_register))
      else
        match first_by_username (value username) (users db) with
        | Some _ =>
            unchanged db req
              [flash "Username already exists." "error"]
              (Redirect (url_for ep_register))
        | None =>
            let user :=
              {| User.id := next_id (List.map User.id (users db));
                 User.username := value username;
                 User.password_hash :=
                   generate_password_hash (salt w) (value password) |} in
            {| db_after :=
                 {| users := users db ++ [user]; entries := entries db |};
               session_after := session_user_id req;
               flashes := [flash "Registration successful! Please log in." "success"];
               resp := Redirect (url_for ep_login) |}
        end
  | _ => unchanged db req [] (Render (lit "register.html") [])
  end.

Definition login (db : database) (req : request) : outcome :=
  match method req with
  | POST =>
      let username := get "username" (form req) in
      let password := get "password" (form req) in
      if negb (truthy username) || negb (truthy password) then
        unchanged db req
          [flash "Username and password are required." "error"]
          (Redirect (url_for ep_login))
      else
        match first_by_username (value username) (users db) with
        | Some user =>
            if check_password_hash (User.password_hash user) (value password)
            then
              let next_page := get "next" (args req) in
              {| db_after := db;
                 session_after := Some (User.id user);
                 flashes := [];
                 resp :=
                   if truthy next_page && is_safe_url req (value next_page)
                   then Redirect (value next_page)
                   else Redirect (url_for ep_index) |}
            else
              unchanged db req
                [flash "Invalid username or password." "error"]
                (Render (lit "login.html") [])
        | None =>
            unchanged db req
              [flash "Invalid username or password." "error"]
              (Render (lit "login.html") [])
        end
  | _ => unchanged db req [] (Render (lit "login.html") [])
  end.

(** [flask_login.current_user]: the user loaded from the identity of the
    session, if there is one. *)
Definition current_user (db : database) (req : request) : option User.t :=
  match session_user_id req with
  | Some uid => load_user db uid
  | None => None
  end.

(** [@login_required]: an anonymous request does not reach the view;
    Flask-Login flashes its message and answers [Unauthorized], the redirect
    to the login view with the requested URL as [next]. *)
Definition login_required {A} (db : database) (req : request)
    (anonymous : outcome -> A) (view : User.t -> A) : A :=
  match current_user db req with
  | Some u => view u
  | None =>
      anonymous
        (unchanged db req [flash "Please log in to access this page." "message"]
           Unauthorized)
  end.

Definition logout (db : database) (req : request) : outcome :=
  login_required db req (fun o => o) (fun _ =>
    {| db_after := db; session_after := None;
       flashes := [flash "Logged out successfully." "success"];
       resp := Redirect (url_for ep_login) |}).

(** The f-string of [index]. *)
Definition user_input_of (addiction_type description : str) : str :=
  lit "I am struggling with " ++ addiction_type
  ++ lit ". Here's what I'm going through: " ++ description.

Definition index (db : database) (req : request) (w : world)
  : result outcome :=
  login_required db req (fun o => Return o) (fun current_user =>
    match method req with
    | POST =>
        let addiction_type := get "addiction_type" (form req) in
        let description := get "description" (form req) in
        if negb (truthy addiction_type) || negb (truthy description) then
          Return (unchanged db req
            [flash "Addiction type and description are required." "error"]
            (Redirect (url_for ep_index)))
        else if (100 <? len (value addiction_type))
                || (1000 <? len (value description)) then
          Return (unchanged db req
            [flash "Addiction type cannot exceed 100 characters and description cannot exceed 1000 characters." "error"]
            (Redirect (url_for ep_index)))
        else
          let user_input :=
            user_input_of (value addiction_type) (value description) in
          xai_response <- get_xai_response w user_input ;;
          let entry :=
            {| Entry.id := next_id (List.map Entry.id (entries db));
               Entry.user_id := User.id current_user;
               Entry.addiction_type := value addiction_type;
               Entry.description := value description;
               Entry.response := xai_response;
               Entry.created_at := now w |} in
          Return
            {| db_after :=
                 {| users := users db; entries := entries db ++ [entry] |};
               session_after := session_user_id req;
               flashes := [flash "Entry saved successfully." "success"];
               resp := Redirect (url_for ep_index) |}
    | _ =>
        let entries :=
          order_by_created_at_desc
            (filter_by_user_id (User.id current_user) (entries db)) in
        Return (unchanged db req []
                  (Render (lit "index.html") [("entries"%string, entries)]))
    end).

(** The rejecting outcomes of [register]: the database is the one the
    request found, one error message is flashed, and the form is shown
    again. *)
Definition register_rejected (db : database) (o : outcome) : Prop :=
  db_after o = db /\
  resp o = Redirect (url_for ep_register) /\
  exists msg, flashes o = [(msg, lit "error")].

(** The test that [is_safe_url] makes, as a proposition: the target, joined
    to the URL of the current host, has scheme http or https and the
    network location of the current host. *)
Definition same_origin (req : request) (target : str) : Prop :=
  let joined := urlparse (urljoin (host_url req) target) in
  (scheme joined = lit "http" \/ scheme joined = lit "https") /\
  netloc joined = netloc (urlparse (host_url req)).

(** The target of [next] names another host than the current one. *)
Definition external_host (req : request) (target : str) : Prop :=
  netloc (urlparse (urljoin (host_url req) target))
  <> netloc (urlparse (host_url req)).

(** The row that [index] adds for a submission by [u]. *)
Definition new_entry (db : database) (u : User.t) (cat desc reply : str)
    (w : world) : Entry.t :=
  {| Entry.id := next_id (List.map Entry.id (entries db));
     Entry.user_id := User.id u;
     Entry.addiction_type := cat;
     Entry.description := desc;
     Entry.response := reply;
     Entry.created_at := now w |}.

(** The outcome of [index] when the row [e] has been committed. *)
Definition entry_saved (db : database) (req : request) (e : Entry.t)
  : outcome :=
  {| db_after := {| users := users db; entries := entries db ++ [e] |};
     session_after := session_user_id req;
     flashes := [flash "Entry saved successfully." "success"];
     resp := Redirect (url_for ep_index) |}.

(** The rejecting outcomes of [index]: nothing is stored, one error message
    is flashed, and the browser is sent back to the listing. *)
Definition entry_rejected (db : database) (req : request) (o : outcome)
  : Prop :=
  exists msg,
    o = unchanged db req [(msg, lit "error")] (Redirect (url_for ep_index)).

(** Newest first. *)
Definition newer_or_same (a b : Entry.t) : Prop :=
  (Entry.created_at b <= Entry.created_at a)%Z.

Definition newest_first (l : list Entry.t) : Prop :=
  StronglySorted newer_or_same l.

(** [core] is [raw] without a run of whitespace at either end. *)
Definition trimmed_from (raw core : str) : Prop :=
  exists l r,
    raw = l ++ core ++ r /\
    forallb isspace l = true /\ forallb isspace r = true.

(** Neither the first nor the last character of [s] is whitespace. *)
Definition no_outer_whitespace (s : str) : Prop :=
  (forall c, hd_error s = Some c -> isspace c = false) /\
  (forall c, hd_error (rev s) = Some c -> isspace c = false).

(** The store after a sequence of requests to [/register]. *)
Definition register_all (db : database) (reqs : list (request * world))
  : database :=
  fold_left (fun d rw => db_after (register d (fst rw) (snd rw))) reqs db.

(** Invariants of the store. *)

(** Every entry is owned by a stored user. *)
Definition owners_exist (db : database) : Prop :=
  Forall (fun e => exists u, In u (users db) /\ User.id u = Entry.user_id e)
    (entries db).

(** Every stored entry passed the checks of [index]: both texts are present,
    the category has at most 100 characters and the description at most
    1000. *)
Definition entries_within_limits (db : database) : Prop :=
  Forall (fun e =>
            1 <= len (Entry.addiction_type e) <= 100 /\
            1 <= len (Entry.description e) <= 1000)
    (entries db).

(** Every stored username passed the check of [register]. *)
Definition usernames_long_enough (db : database) : Prop :=
  Forall (fun u => 3 <= len (User.username u)) (users db).

(** The exceptions of a subscript or attribute access gone wrong. *)
Definition is_shape_error (e : exn) : bool :=
  match e with
  | KeyError | IndexError | TypeError | AttributeError => true
  | _ => false
  end.

(** ** Basic facts *)

Lemma str_eqb_eq (a b : str) : str_eqb a b = true <-> a = b.
Proof.
  unfold str_eqb. destruct (list_eq_dec N.eq_dec a b); split; congruence.
Qed.

Lemma str_eqb_neq (a b : str) : str_eqb a b = false <-> a <> b.
Proof.
  unfold str_eqb. destruct (list_eq_dec N.eq_dec a b); split; congruence.
Qed.

Lemma truthy_some (s : str) : s <> [] -> truthy (Some s) = true.
Proof.
  destruct s; [contradiction | reflexivity].
Qed.

Lemma first_by_username_none (name : str) (us : list User.t) :
  first_by_username name us = None <-> ~ In name (List.map User.username us).
Proof.
  unfold first_by_username. induction us as [|u us IH]; simpl.
  - split; [intros _ [] | reflexivity].
  - destruct (str_eqb (User.username u) name) eqn:E.
    + apply str_eqb_eq in E. split; [discriminate | intros H; elim H; auto].
    + apply str_eqb_neq in E. rewrite IH. split.
      * intros Hn [Hx | Hx]; [exact (E Hx) | exact (Hn Hx)].
      * intros Hn Hx. apply Hn. right. exact Hx.
Qed.

Lemma first_by_username_some (name : str) (us : list User.t) :
  In name (List.map User.username us) ->
  exists u, first_by_username name us = Some u /\ User.username u = name.
Proof.
  unfold first_by_username. induction us as [|u us IH]; simpl; [intros []|].
  intros H. destruct (str_eqb (User.username u) name) eqn:E.
  - apply str_eqb_eq in E. eauto.
  - apply str_eqb_neq in E. apply IH. destruct H; [contradiction | assumption].
Qed.

Ltac rejected :=
  unfold register_rejected, unchanged, flash; simpl;
  repeat split; eexists; reflexivity.

(** ** Registration *)

Lemma register_short_rejected (db : database) (req : request) (w : world) :
  method req = POST ->
  len (value (get "username" (form req))) < 3 \/
  len (value (get "password" (form req))) < 6 ->
  register_rejected db (register db req w).
Proof.
  intros Hm Hshort. unfold register. rewrite Hm.
  destruct (negb (truthy (get "username" (form req)))
            || negb (truthy (get "password" (form req)))) eqn:E1.
  - rejected.
  - assert (E2 : ((len (value (get "username" (form req))) <? 3)
                  || (len (value (get "password" (form req))) <? 6)) = true).
    { apply orb_true_iff.
      destruct Hshort as [H|H]; [left | right]; apply Nat.ltb_lt; exact H. }
    rewrite E2. rejected.
Qed.

Lemma register_not_post (db : database) (req : request) (w : world) :
  method req <> POST -> db_after (register db req w) = db.
Proof.
  intros Hm. unfold register. destruct (method req); try reflexivity.
  contradiction.
Qed.

(** C5: a registration attempt whose username or password is missing, or
    whose username has fewer than 3 characters, or whose password has fewer
    than 6, creates no user: the store after the request is the store
    before it. *)
Theorem register_invalid_creates_no_user
    (db : database) (req : request) (w : world) :
  get "username" (form req) = None \/
  get "password" (form req) = None \/
  len (value (get "username" (form req))) < 3 \/
  len (value (get "password" (form req))) < 6 ->
  db_after (register db req w) = db /\
  users (db_after (register db req w)) = users db.
Proof.
  intros H.
  assert (Hshort : len (value (get "username" (form req))) < 3 \/
                   len (value (get "password" (form req))) < 6).
  { destruct H as [H | [H | [H | H]]].
    - left. rewrite H. simpl. lia.
    - right. rewrite H. simpl. lia.
    - left. exact H.
    - right. exact H. }
  assert (Hdb : db_after (register db req w) = db).
  { destruct (method req) eqn:Hm.
    - apply register_not_post. congruence.
    - apply register_not_post. congruence.
    - apply (register_short_rejected db req w Hm Hshort). }
  split; [exact Hdb | now rewrite Hdb].
Qed.

Lemma register_taken_rejected (db : database) (req : request) (w : world)
    (name : str) :
  method req = POST ->
  get "username" (form req) = Some name ->
  In name (List.map User.username (users db)) ->
  register_rejected db (register db req w).
Proof.
  intros Hm Hu Hin. unfold register. rewrite Hm, Hu. simpl value.
  destruct (negb (truthy (Some name))
            || negb (truthy (get "password" (form req)))) eqn:E1.
  { rejected. }
  destruct ((len name <? 3)
            || (len (value (get "password" (form req))) <? 6)) eqn:E2.
  { rejected. }
  destruct (first_by_username_some name (users db) Hin) as (u & Hf & _).
  rewrite Hf. rejected.
Qed.

Lemma register_users_cases (db : database) (req : request) (w : world) :
  users (db_after (register db req w)) = users db \/
  exists u,
    users (db_after (register db req w)) = users db ++ [u] /\
    ~ In (User.username u) (List.map User.username (users db)).
Proof.
  unfold register. destruct (method req); simpl; auto.
  destruct (negb (truthy (get "username" (form req)))
            || negb (truthy (get "password" (form req)))); simpl; auto.
  destruct ((len (value (get "username" (form req))) <? 3)
            || (len (value (get "password" (form req))) <? 6)); simpl; auto.
  destruct (first_by_username (value (get "username" (form req))) (users db))
    eqn:Hf; simpl; auto.
  right. eexists. split; [reflexivity|]. simpl.
  now apply first_by_username_none.
Qed.

(** C6: when the username of a registration attempt is already in the
    store, the attempt is rejected and the store, hence its size, is
    unchanged; and whatever the request, a store whose usernames are
    pairwise distinct stays so. *)
Theorem register_keeps_usernames_unique :
  (forall db req w name,
      method req = POST ->
      get "username" (form req) = Some name ->
      In name (List.map User.username (users db)) ->
      register_rejected db (register db req w) /\
      List.length (users (db_after (register db req w)))
      = List.length (users db)) /\
  (forall db req w,
      NoDup (List.map User.username (users db)) ->
      NoDup (List.map User.username (users (db_after (register db req w))))).
Proof.
  split.
  - intros db req w name Hm Hu Hin.
    pose proof (register_taken_rejected db req w name Hm Hu Hin) as Hrej.
    split; [exact Hrej|]. destruct Hrej as (Hdb & _). now rewrite Hdb.
  - intros db req w Hnd.
    destruct (register_users_cases db req w) as [E | (u & E & Hfresh)];
      rewrite E; [exact Hnd|].
    rewrite map_app. simpl.
    apply NoDup_app; [exact Hnd | repeat constructor; intros [] | ].
    intros x Hx [<- | []]. contradiction.
Qed.

Lemma usernames_unique_after_registrations
    (db : database) (reqs : list (request * world)) :
  NoDup (List.map User.username (users db)) ->
  NoDup (List.map User.username (users (register_all db reqs))).
Proof.
  unfold register_all. revert db.
  induction reqs as [|[req w] reqs IH]; intros db Hnd; simpl; [exact Hnd|].
  apply IH.
  destruct (register_users_cases db req w) as [E | (u & E & Hfresh)];
    rewrite E; [exact Hnd|].
  rewrite map_app. simpl.
  apply NoDup_app; [exact Hnd | repeat constructor; intros [] | ].
  intros x Hx [<- | []]. contradiction.
Qed.

(** C10: registration has no upper bound on either field: for a username of
    at least 3 characters that is not in the store and a password of at
    least 6, of any length, the user is added with the hash of the
    password and the browser is sent to the login page. *)
Theorem register_accepts_any_length
    (db : database) (req : request) (w : world) (u p : str) :
  method req = POST ->
  get "username" (form req) = Some u ->
  get "password" (form req) = Some p ->
  3 <= len u ->
  6 <= len p ->
  ~ In u (List.map User.username (users db)) ->
  register db req w =
    {| db_after :=
         {| users :=
              users db ++
              [ {| User.id := next_id (List.map User.id (users db));
                   User.username := u;
                   User.password_hash := generate_password_hash (salt w) p |} ];
            entries := entries db |};
       session_after := session_user_id req;
       flashes := [flash "Registration successful! Please log in." "success"];
       resp := Redirect (url_for ep_login) |}.
Proof.
  intros Hm Hu Hp Hlu Hlp Hfresh. unfold register. rewrite Hm, Hu, Hp.
  simpl value.
  rewrite (truthy_some u), (truthy_some p).
  2: { intros ->. simpl in Hlp. lia. }
  2: { intros ->. simpl in Hlu. lia. }
  simpl orb.
  replace (len u <? 3) with false by (symmetry; apply Nat.ltb_ge; lia).
  replace (len p <? 6) with false by (symmetry; apply Nat.ltb_ge; lia).
  simpl orb.
  apply first_by_username_none in Hfresh. rewrite Hfresh. reflexivity.
Qed.

(** ** Login *)

Lemma is_safe_url_same_origin (req : request) (target : str) :
  is_safe_url req target = true <-> same_origin req target.
Proof.
  unfold is_safe_url, same_origin. cbv zeta.
  rewrite andb_true_iff, orb_true_iff, !str_eqb_eq.
  split; intros (Hs & Hn); (split; [exact Hs | congruence]).
Qed.

Lemma login_success (db : database) (req : request) (u p : str) (user : User.t) :
  method req = POST ->
  get "username" (form req) = Some u -> u <> [] ->
  get "password" (form req) = Some p -> p <> [] ->
  first_by_username u (users db) = Some user ->
  check_password_hash (User.password_hash user) p = true ->
  login db req =
    {| db_after := db;
       session_after := Some (User.id user);
       flashes := [];
       resp :=
         if truthy (get "next" (args req))
            && is_safe_url req (value (get "next" (args req)))
         then Redirect (value (get "next" (args req)))
         else Redirect (url_for ep_index) |}.
Proof.
  intros Hm Hu Hune Hp Hpne Hf Hc. unfold login.
  rewrite Hm, Hu, Hp, (truthy_some u Hune), (truthy_some p Hpne).
  simpl. rewrite Hf, Hc. reflexivity.
Qed.

(** C2: after a successful login that carries a [next] parameter, the
    browser is sent to that target exactly when the target is non-empty and,
    joined to the URL of the current host, has scheme http or https and the
    network location of the current host; otherwise, and in particular for
    every target on another host, it is sent to the index page. *)
Theorem login_next_followed_only_if_same_origin
    (db : database) (req : request) (u p target : str) (user : User.t) :
  method req = POST ->
  get "username" (form req) = Some u -> u <> [] ->
  get "password" (form req) = Some p -> p <> [] ->
  first_by_username u (users db) = Some user ->
  check_password_hash (User.password_hash user) p = true ->
  get "next" (args req) = Some target ->
  session_after (login db req) = Some (User.id user) /\
  (target <> [] -> same_origin req target ->
   resp (login db req) = Redirect target) /\
  (~ same_origin req target ->
   resp (login db req) = Redirect (url_for ep_index)) /\
  (external_host req target ->
   resp (login db req) = Redirect (url_for ep_index)).
Proof.
  intros Hm Hu Hune Hp Hpne Hf Hc Hn.
  rewrite (login_success db req u p user Hm Hu Hune Hp Hpne Hf Hc).
  rewrite Hn. cbn [resp session_after value].
  assert (Hunsafe : ~ same_origin req target ->
            (if truthy (Some target) && is_safe_url req target
             then Redirect target else Redirect (url_for ep_index))
            = Redirect (url_for ep_index)).
  { intros Hno. destruct (is_safe_url req target) eqn:E.
    - apply is_safe_url_same_origin in E. contradiction.
    - rewrite andb_false_r. reflexivity. }
  repeat split.
  - intros Hne Hso. apply is_safe_url_same_origin in Hso.
    rewrite Hso, (truthy_some target Hne). reflexivity.
  - exact Hunsafe.
  - intros Hext. apply Hunsafe. intros (_ & Heq). exact (Hext Heq).
Qed.

(** C3, as the code has it: a login attempt with a missing field is answered
    with the message that both fields are required; with both fields given,
    an unknown username and a wrong password are answered alike, with the
    message that the username or the password is invalid, and nothing else
    of the outcome tells the two apart. *)
Theorem login_failure_messages
    (db : database) (req : request) :
  method req = POST ->
  (truthy (get "username" (form req)) = false \/
   truthy (get "password" (form req)) = false ->
   login db req =
     unchanged db req [flash "Username and password are required." "error"]
       (Redirect (url_for ep_login))) /\
  (forall u p,
      get "username" (form req) = Some u -> u <> [] ->
      get "password" (form req) = Some p -> p <> [] ->
      first_by_username u (users db) = None \/
      (exists user, first_by_username u (users db) = Some user /\
                    check_password_hash (User.password_hash user) p = false) ->
      login db req =
        unchanged db req [flash "Invalid username or password." "error"]
          (Render (lit "login.html") [])).
Proof.
  intros Hm. split.
  - intros H. unfold login. rewrite Hm.
    replace (negb (truthy (get "username" (form req)))
             || negb (truthy (get "password" (form req)))) with true.
    + reflexivity.
    + symmetry. apply orb_true_iff.
      destruct H as [H | H]; rewrite H; auto.
  - intros u p Hu Hune Hp Hpne H. unfold login.
    rewrite Hm, Hu, Hp, (truthy_some u Hune), (truthy_some p Hpne). simpl.
    destruct H as [Hf | (user & Hf & Hc)]; rewrite Hf; [|rewrite Hc];
      reflexivity.
Qed.

(** ** Start-up *)

(** C8: when the API key is set, so that table creation is reached, and
    table creation raises, the start-up block raises the same exception: it
    never completes. *)
Theorem startup_reraises (XAI_API_KEY : option str) (e : exn) :
  truthy XAI_API_KEY = true ->
  startup XAI_API_KEY (Raise e) = Raise e.
Proof.
  intros Hk. unfold startup, try_except. rewrite Hk. simpl.
  destruct (is_Exception e); reflexivity.
Qed.

(** ** Stripping *)

Lemma lstrip_split (s : str) :
  exists l, s = l ++ lstrip s /\ forallb isspace l = true.
Proof.
  induction s as [|c s (l & Hs & Hl)]; simpl.
  - exists []. auto.
  - destruct (isspace c) eqn:E.
    + exists (c :: l). simpl. rewrite E, Hl. split; [congruence | reflexivity].
    + exists []. auto.
Qed.

Lemma lstrip_head (s : str) (c : N) :
  hd_error (lstrip s) = Some c -> isspace c = false.
Proof.
  induction s as [|a s IH]; simpl; [discriminate|].
  destruct (isspace a) eqn:E; [exact IH|].
  simpl. intros [= <-]. exact E.
Qed.

Lemma forallb_rev {A} (f : A -> bool) (l : list A) :
  forallb f (rev l) = forallb f l.
Proof.
  induction l as [|a l IH]; simpl; [reflexivity|].
  rewrite forallb_app, IH. simpl. rewrite andb_true_r. apply andb_comm.
Qed.

Lemma rstrip_split (s : str) :
  exists r, s = rstrip s ++ r /\ forallb isspace r = true.
Proof.
  destruct (lstrip_split (rev s)) as (l & Hs & Hl).
  exists (rev l). split.
  - unfold rstrip. rewrite <- rev_app_distr, <- Hs. symmetry. apply rev_involutive.
  - now rewrite forallb_rev.
Qed.

Lemma rstrip_last (s : str) (c : N) :
  hd_error (rev (rstrip s)) = Some c -> isspace c = false.
Proof.
  unfold rstrip. rewrite rev_involutive. apply lstrip_head.
Qed.

Lemma strip_trimmed (s : str) : trimmed_from s (strip s).
Proof.
  destruct (lstrip_split s) as (l & Hs & Hl).
  destruct (rstrip_split (lstrip s)) as (r & Hr & Hrs).
  exists l, r. unfold strip. rewrite <- Hr. auto.
Qed.

Lemma strip_no_outer_whitespace (s : str) : no_outer_whitespace (strip s).
Proof.
  split; intros c Hc.
  - destruct (rstrip_split (lstrip s)) as (r & Hr & _).
    apply (lstrip_head s). rewrite Hr. fold (strip s).
    destruct (strip s); [discriminate | exact Hc].
  - apply (rstrip_last (lstrip s)). exact Hc.
Qed.

(** ** Ordering of the listing *)

Lemma insert_desc_perm (e : Entry.t) (l : list Entry.t) :
  Permutation (insert_desc e l) (e :: l).
Proof.
  induction l as [|x l IH]; simpl; [reflexivity|].
  destruct (Entry.created_at x <? Entry.created_at e)%Z; [reflexivity|].
  rewrite IH. apply perm_swap.
Qed.

Lemma order_by_perm (l : list Entry.t) :
  Permutation (order_by_created_at_desc l) l.
Proof.
  induction l as [|e l IH]; simpl; [constructor|].
  rewrite insert_desc_perm. now constructor.
Qed.

Lemma insert_desc_sorted (e : Entry.t) (l : list Entry.t) :
  newest_first l -> newest_first (insert_desc e l).
Proof.
  unfold newest_first. induction 1 as [|x l Hs IH Hx]; simpl.
  - repeat constructor.
  - destruct (Entry.created_at x <? Entry.created_at e)%Z eqn:E.
    + apply Z.ltb_lt in E. constructor; [now constructor|].
      constructor; [unfold newer_or_same; lia|].
      eapply Forall_impl; [|exact Hx]. unfold newer_or_same. intros y Hy. lia.
    + apply Z.ltb_ge in E. constructor; [exact IH|].
      eapply Permutation_Forall; [symmetry; apply insert_desc_perm|].
      constructor; [exact E | exact Hx].
Qed.

Lemma order_by_sorted (l : list Entry.t) :
  newest_first (order_by_created_at_desc l).
Proof.
  induction l as [|e l IH]; simpl; [constructor|].
  now apply insert_desc_sorted.
Qed.

(** ** Entries *)

Lemma index_post_valid (db : database) (req : request) (w : world)
    (u : User.t) (cat desc : str) :
  current_user db req = Some u ->
  method req = POST ->
  get "addiction_type" (form req) = Some cat -> cat <> [] ->
  get "description" (form req) = Some desc -> desc <> [] ->
  len cat <= 100 -> len desc <= 1000 ->
  index db req w =
    (reply <- get_xai_response w (user_input_of cat desc) ;;
     Return (entry_saved db req (new_entry db u cat desc reply w))).
Proof.
  intros Hu Hm Hc Hcne Hd Hdne Hlc Hld. unfold index, login_required.
  rewrite Hu, Hm, Hc, Hd, (truthy_some cat Hcne), (truthy_some desc Hdne).
  cbn [negb orb value].
  replace (100 <? len cat) with false by (symmetry; apply Nat.ltb_ge; lia).
  replace (1000 <? len desc) with false by (symmetry; apply Nat.ltb_ge; lia).
  reflexivity.
Qed.

Lemma index_post_rejected (db : database) (req : request) (w : world)
    (u : User.t) :
  current_user db req = Some u ->
  method req = POST ->
  100 < len (value (get "addiction_type" (form req))) \/
  1000 < len (value (get "description" (form req))) ->
  exists o, index db req w = Return o /\ entry_rejected db req o.
Proof.
  intros Hu Hm Hlong. unfold index, login_required, entry_rejected.
  rewrite Hu, Hm.
  destruct (negb (truthy (get "addiction_type" (form req)))
            || negb (truthy (get "description" (form req)))).
  - eexists. split; [reflexivity|]. eexists. reflexivity.
  - replace ((100 <? len (value (get "addiction_type" (form req))))
             || (1000 <? len (value (get "description" (form req)))))
      with true.
    + eexists. split; [reflexivity|]. eexists. reflexivity.
    + symmetry. apply orb_true_iff.
      destruct Hlong as [H | H]; [left | right]; apply Nat.ltb_lt; exact H.
Qed.

(** C1: for a submission with a valid category and description, when the
    call to the completion service raises a request exception, the handler
    returns normally: the entry is stored for the current user with the
    fallback text as its reply, and the response is the redirect to the
    listing with the message that the entry was saved. *)
Theorem index_stores_fallback_on_request_exception
    (db : database) (req : request) (w : world) (u : User.t)
    (cat desc : str) (e : exn) :
  current_user db req = Some u ->
  method req = POST ->
  get "addiction_type" (form req) = Some cat -> cat <> [] ->
  get "description" (form req) = Some desc -> desc <> [] ->
  len cat <= 100 -> len desc <= 1000 ->
  completion_call w (user_input_of cat desc) = Raise e ->
  is_RequestException e = true ->
  index db req w =
    Return (entry_saved db req (new_entry db u cat desc fallback w)).
Proof.
  intros Hu Hm Hc Hcne Hd Hdne Hlc Hld Hcall He.
  rewrite (index_post_valid db req w u cat desc Hu Hm Hc Hcne Hd Hdne Hlc Hld).
  unfold get_xai_response, try_except. rewrite Hcall, He. reflexivity.
Qed.

(** The three kinds of failure named by the specification, as they reach
    the [try] block. *)
Lemma completion_call_network_failure (w : world) (ui : str) (e : exn) :
  post w ui = Raise e -> completion_call w ui = Raise e.
Proof.
  intros H. unfold completion_call. rewrite H. reflexivity.
Qed.

Lemma completion_call_error_status (w : world) (ui : str) (r : http_response) :
  post w ui = Return r ->
  (400 <= status_code r < 600)%Z ->
  completion_call w ui = Raise HTTPError.
Proof.
  intros H Hs. unfold completion_call, raise_for_status. rewrite H. simpl.
  replace (400 <=? status_code r)%Z with true by (symmetry; apply Z.leb_le; lia).
  replace (status_code r <? 600)%Z with true by (symmetry; apply Z.ltb_lt; lia).
  reflexivity.
Qed.

Lemma completion_call_not_json (w : world) (ui : str) (r : http_response) :
  post w ui = Return r ->
  raise_for_status r = Return tt ->
  body r = None ->
  completion_call w ui = Raise JSONDecodeError.
Proof.
  intros H Hs Hb. unfold completion_call, json_of. rewrite H. simpl.
  rewrite Hs. simpl. rewrite Hb. reflexivity.
Qed.

(** C4, as the code has it: with a category that is present and of at most
    100 characters, a description of exactly 1000 characters passes
    validation, and the entry is stored as soon as the reply call returns; a
    description of 1001 characters, or a category of 101, is rejected with an
    error message and nothing is stored. *)
Theorem index_length_limits
    (db : database) (req : request) (w : world) (u : User.t) :
  current_user db req = Some u ->
  method req = POST ->
  (forall cat desc reply,
      get "addiction_type" (form req) = Some cat -> cat <> [] ->
      get "description" (form req) = Some desc ->
      len cat <= 100 -> len desc = 1000 ->
      get_xai_response w (user_input_of cat desc) = Return reply ->
      index db req w =
        Return (entry_saved db req (new_entry db u cat desc reply w))) /\
  (len (value (get "description" (form req))) = 1001 \/
   len (value (get "addiction_type" (form req))) = 101 ->
   exists o, index db req w = Return o /\ entry_rejected db req o /\
             entries (db_after o) = entries db).
Proof.
  intros Hu Hm. split.
  - intros cat desc reply Hc Hcne Hd Hlc Hld Hr.
    rewrite (index_post_valid db req w u cat desc); try assumption.
    + rewrite Hr. reflexivity.
    + intros ->. discriminate Hld.
    + lia.
  - intros Hlong.
    destruct (index_post_rejected db req w u Hu Hm) as (o & Ho & Hrej).
    { destruct Hlong as [H | H]; rewrite H; [right | left]; lia. }
    exists o. repeat split; try assumption.
    destruct Hrej as (msg & ->). reflexivity.
Qed.

(** C7: for an authenticated user, the listing is the rendering of exactly
    the stored entries owned by that user (each as often as it is stored),
    newest first; no entry of another user is among them. *)
Theorem index_lists_own_entries_newest_first
    (db : database) (req : request) (w : world) (u : User.t) :
  current_user db req = Some u ->
  method req = GET ->
  exists es,
    index db req w =
      Return (unchanged db req []
                (Render (lit "index.html") [("entries"%string, es)])) /\
    Permutation es
      (filter (fun e => Nat.eqb (Entry.user_id e) (User.id u)) (entries db)) /\
    (forall e, In e es <->
               In e (entries db) /\ Entry.user_id e = User.id u) /\
    newest_first es.
Proof.
  intros Hu Hm. unfold index, login_required. rewrite Hu, Hm.
  eexists. split; [reflexivity|].
  pose proof (order_by_perm (filter_by_user_id (User.id u) (entries db))) as HP.
  split; [exact HP|]. split; [|apply order_by_sorted].
  intros e. split.
  - intros Hin. apply (Permutation_in _ HP) in Hin.
    apply filter_In in Hin. destruct Hin as (Hin & Heq).
    apply Nat.eqb_eq in Heq. auto.
  - intros (Hin & Heq). apply (Permutation_in _ (Permutation_sym HP)).
    apply filter_In. split; [exact Hin | now apply Nat.eqb_eq].
Qed.

(** C9: when the call to the completion service succeeds (a response whose
    status is no error, whose payload is JSON and holds a string at
    [choices[0].message.content]), the reply stored with the entry is that
    string stripped: the content is the stored reply between two runs of
    whitespace, the stored reply neither begins nor ends with whitespace, and
    so it differs from the content whenever the content does. *)
Theorem index_stores_stripped_content
    (db : database) (req : request) (w : world) (u : User.t)
    (cat desc content : str) (r : http_response) (j : json) :
  current_user db req = Some u ->
  method req = POST ->
  get "addiction_type" (form req) = Some cat -> cat <> [] ->
  get "description" (form req) = Some desc -> desc <> [] ->
  len cat <= 100 -> len desc <= 1000 ->
  post w (user_input_of cat desc) = Return r ->
  raise_for_status r = Return tt ->
  body r = Some j ->
  message_content j = Return (JStr content) ->
  index db req w =
    Return (entry_saved db req (new_entry db u cat desc (strip content) w)) /\
  trimmed_from content (strip content) /\
  no_outer_whitespace (strip content) /\
  (~ no_outer_whitespace content -> strip content <> content).
Proof.
  intros Hu Hm Hc Hcne Hd Hdne Hlc Hld Hpost Hst Hb Hmc.
  split; [|split; [apply strip_trimmed|split; [apply strip_no_outer_whitespace|]]].
  - rewrite (index_post_valid db req w u cat desc Hu Hm Hc Hcne Hd Hdne Hlc Hld).
    unfold get_xai_response, completion_call, json_of.
    rewrite Hpost. simpl. rewrite Hst. simpl. rewrite Hb. simpl.
    rewrite Hmc. reflexivity.
  - intros Hno Heq. apply Hno. rewrite <- Heq. apply strip_no_outer_whitespace.
Qed.

(** A payload that is JSON but not of the expected shape raises an exception
    that is no request exception: it leaves [get_xai_response] and the
    handler. *)
Lemma index_propagates_other_exceptions
    (db : database) (req : request) (w : world) (u : User.t)
    (cat desc : str) (e : exn) :
  current_user db req = Some u ->
  method req = POST ->
  get "addiction_type" (form req) = Some cat -> cat <> [] ->
  get "description" (form req) = Some desc -> desc <> [] ->
  len cat <= 100 -> len desc <= 1000 ->
  completion_call w (user_input_of cat desc) = Raise e ->
  is_RequestException e = false ->
  index db req w = Raise e.
Proof.
  intros Hu Hm Hc Hcne Hd Hdne Hlc Hld Hcall He.
  rewrite (index_post_valid db req w u cat desc Hu Hm Hc Hcne Hd Hdne Hlc Hld).
  unfold get_xai_response, try_except. rewrite Hcall, He. reflexivity.
Qed.

(** ** Lookups in the store *)

Lemma app_one_neq {A} (l : list A) (x : A) : l ++ [x] <> l.
Proof.
  intros H. apply (f_equal (@List.length A)) in H.
  rewrite length_app in H. simpl in H. lia.
Qed.

Lemma truthy_inv (o : option str) :
  truthy o = true -> exists s, o = Some s /\ s <> [] /\ 1 <= len s.
Proof.
  destruct o as [[|c s]|]; simpl; try discriminate.
  intros _. exists (c :: s). repeat split; [discriminate | simpl; lia].
Qed.

Lemma first_by_username_in (name : str) (us : list User.t) (u : User.t) :
  first_by_username name us = Some u -> In u us /\ User.username u = name.
Proof.
  unfold first_by_username. intros H. apply find_some in H.
  destruct H as (Hin & Heq). apply str_eqb_eq in Heq. split; assumption.
Qed.

Lemma first_by_username_new (name : str) (us : list User.t) (u : User.t) :
  ~ In name (List.map User.username us) ->
  User.username u = name ->
  first_by_username name (us ++ [u]) = Some u.
Proof.
  intros Hfresh Hname. unfold first_by_username.
  induction us as [|x us IH]; simpl.
  - replace (str_eqb (User.username u) name) with true; [reflexivity|].
    symmetry. now apply str_eqb_eq.
  - simpl in Hfresh.
    replace (str_eqb (User.username x) name) with false.
    + apply IH. intros Hin. apply Hfresh. right. exact Hin.
    + symmetry. apply str_eqb_neq. intros Heq. apply Hfresh. left. exact Heq.
Qed.

Lemma load_user_in (db : database) (uid : nat) (u : User.t) :
  load_user db uid = Some u -> In u (users db) /\ User.id u = uid.
Proof.
  unfold load_user. intros H. apply find_some in H.
  destruct H as (Hin & Heq). apply Nat.eqb_eq in Heq. split; assumption.
Qed.

Lemma load_user_found (db : database) (u : User.t) :
  In u (users db) ->
  exists u', load_user db (User.id u) = Some u' /\ User.id u' = User.id u.
Proof.
  unfold load_user. intros Hin.
  destruct (find (fun x => Nat.eqb (User.id x) (User.id u)) (users db))
    as [u'|] eqn:E.
  - exists u'. split; [reflexivity|].
    apply find_some in E. destruct E as (_ & E). now apply Nat.eqb_eq in E.
  - exfalso. pose proof (find_none _ _ E u Hin) as Hn. simpl in Hn.
    rewrite Nat.eqb_refl in Hn. discriminate.
Qed.

(** ** How the handlers compose *)

Lemma register_post_valid (db : database) (req : request) (w : world)
    (u p : str) :
  method req = POST ->
  get "username" (form req) = Some u ->
  get "password" (form req) = Some p ->
  3 <= len u -> 6 <= len p ->
  register db req w =
    match first_by_username u (users db) with
    | Some _ =>
        unchanged db req [flash "Username already exists." "error"]
          (Redirect (url_for ep_register))
    | None =>
        {| db_after :=
             {| users :=
                  users db ++
                  [ {| User.id := next_id (List.map User.id (users db));
                       User.username := u;
                       User.password_hash :=
                         generate_password_hash (salt w) p |} ];
                entries := entries db |};
           session_after := session_user_id req;
           flashes := [flash "Registration successful! Please log in." "success"];
           resp := Redirect (url_for ep_login) |}
    end.
Proof.
  intros Hm Hu Hp Hlu Hlp. unfold register. rewrite Hm, Hu, Hp.
  cbn [value].
  rewrite (truthy_some u), (truthy_some p).
  2: { intros ->. simpl in Hlp. lia. }
  2: { intros ->. simpl in Hlu. lia. }
  cbn [negb orb].
  replace (len u <? 3) with false by (symmetry; apply Nat.ltb_ge; lia).
  replace (len p <? 6) with false by (symmetry; apply Nat.ltb_ge; lia).
  reflexivity.
Qed.

(** A user who has just registered can log in: when the hash functions agree
    (a password checks against its own hash), a registration that is accepted
    followed by a login with the same username and password opens a session
    for the new user, whose identifier is the one the registration assigned. *)
Theorem register_then_login
    (db : database) (req req' : request) (w : world) (u p : str) :
  (forall s q, check_password_hash (generate_password_hash s q) q = true) ->
  method req = POST ->
  get "username" (form req) = Some u ->
  get "password" (form req) = Some p ->
  3 <= len u -> 6 <= len p ->
  ~ In u (List.map User.username (users db)) ->
  method req' = POST ->
  get "username" (form req') = Some u ->
  get "password" (form req') = Some p ->
  session_after (login (db_after (register db req w)) req')
  = Some (next_id (List.map User.id (users db))) /\
  flashes (login (db_after (register db req w)) req') = [].
Proof.
  intros Hhash Hm Hu Hp Hlu Hlp Hfresh Hm' Hu' Hp'.
  rewrite (register_post_valid db req w u p Hm Hu Hp Hlu Hlp).
  pose proof Hfresh as Hnone. apply first_by_username_none in Hnone.
  rewrite Hnone.
  set (user := {| User.id := next_id (List.map User.id (users db));
                  User.username := u;
                  User.password_hash := generate_password_hash (salt w) p |}).
  cbn [db_after].
  assert (Hune : u <> []) by (intros ->; simpl in Hlu; lia).
  assert (Hpne : p <> []) by (intros ->; simpl in Hlp; lia).
  rewrite (login_success _ req' u p user Hm' Hu' Hune Hp' Hpne).
  - split; reflexivity.
  - cbn [users]. now apply first_by_username_new.
  - apply Hhash.
Qed.

(** A username can be registered once: after a registration that is
    accepted, every further registration with the same username, whatever
    its password, is rejected and leaves the store as the first one left
    it. *)
Theorem register_same_username_twice
    (db : database) (req req' : request) (w w' : world) (u p : str) :
  method req = POST ->
  get "username" (form req) = Some u ->
  get "password" (form req) = Some p ->
  3 <= len u -> 6 <= len p ->
  ~ In u (List.map User.username (users db)) ->
  method req' = POST ->
  get "username" (form req') = Some u ->
  List.length (users (db_after (register db req w)))
  = S (List.length (users db)) /\
  register_rejected (db_after (register db req w))
    (register (db_after (register db req w)) req' w').
Proof.
  intros Hm Hu Hp Hlu Hlp Hfresh Hm' Hu'.
  rewrite (register_post_valid db req w u p Hm Hu Hp Hlu Hlp).
  pose proof Hfresh as Hnone. apply first_by_username_none in Hnone.
  rewrite Hnone. cbn [db_after users]. split.
  - rewrite length_app. simpl. lia.
  - apply (register_taken_rejected _ req' w' u Hm' Hu').
    cbn [users]. rewrite map_app. apply in_or_app. right. left. reflexivity.
Qed.

(** [login] never writes to the store, and it opens a session only for a
    stored user whose username is the submitted one and whose stored hash
    checks against the submitted password; in every other case the session
    is the one the request came with. *)
Theorem login_opens_session_only_after_check (db : database) (req : request) :
  db_after (login db req) = db /\
  (session_after (login db req) = session_user_id req \/
   exists user,
     In user (users db) /\
     session_after (login db req) = Some (User.id user) /\
     method req = POST /\
     get "username" (form req) = Some (User.username user) /\
     check_password_hash (User.password_hash user)
       (value (get "password" (form req))) = true).
Proof.
  unfold login. destruct (method req) eqn:Hm; simpl; auto.
  destruct (negb (truthy (get "username" (form req)))
            || negb (truthy (get "password" (form req)))) eqn:Ht; simpl; auto.
  apply orb_false_iff in Ht. destruct Ht as (Htu & _).
  apply negb_false_iff in Htu.
  destruct (truthy_inv _ Htu) as (u & Hu & _). rewrite Hu. cbn [value].
  destruct (first_by_username u (users db)) as [user|] eqn:Hf; simpl; auto.
  destruct (check_password_hash (User.password_hash user)
              (value (get "password" (form req)))) eqn:Hc; simpl; auto.
  apply first_by_username_in in Hf. destruct Hf as (Hin & Hname).
  split; [reflexivity|]. right. exists user. rewrite Hname. auto.
Qed.

(** The answer of [register] tells whether an account was created: the
    browser is sent to the login page exactly when one user was added to the
    store; in every other case the store is unchanged. *)
Theorem register_redirects_to_login_iff_created
    (db : database) (req : request) (w : world) :
  (resp (register db req w) = Redirect (url_for ep_login) <->
   exists u, users (db_after (register db req w)) = users db ++ [u]) /\
  (resp (register db req w) <> Redirect (url_for ep_login) ->
   db_after (register db req w) = db).
Proof.
  unfold register. destruct (method req); simpl.
  1,2: split; [split; [discriminate|] | reflexivity];
       intros (u & Hu); symmetry in Hu; destruct (app_one_neq _ _ Hu).
  destruct (negb (truthy (get "username" (form req)))
            || negb (truthy (get "password" (form req)))); simpl.
  { split; [split; [discriminate|] | reflexivity].
    intros (u & Hu). symmetry in Hu. destruct (app_one_neq _ _ Hu). }
  destruct ((len (value (get "username" (form req))) <? 3)
            || (len (value (get "password" (form req))) <? 6)); simpl.
  { split; [split; [discriminate|] | reflexivity].
    intros (u & Hu). symmetry in Hu. destruct (app_one_neq _ _ Hu). }
  destruct (first_by_username (value (get "username" (form req))) (users db));
    simpl.
  { split; [split; [discriminate|] | reflexivity].
    intros (u & Hu). symmetry in Hu. destruct (app_one_neq _ _ Hu). }
  split; [split|].
  - intros _. eexists. reflexivity.
  - reflexivity.
  - intros H. exfalso. apply H. reflexivity.
Qed.

(** Every username in the store has at least 3 characters: [register] keeps
    this true, whatever the request. *)
Theorem register_keeps_usernames_long_enough
    (db : database) (req : request) (w : world) :
  usernames_long_enough db ->
  usernames_long_enough (db_after (register db req w)).
Proof.
  unfold usernames_long_enough, register. intros Hinv.
  destruct (method req); simpl; auto.
  destruct (negb (truthy (get "username" (form req)))
            || negb (truthy (get "password" (form req)))); simpl; auto.
  destruct ((len (value (get "username" (form req))) <? 3)
            || (len (value (get "password" (form req))) <? 6)) eqn:E;
    simpl; auto.
  destruct (first_by_username (value (get "username" (form req))) (users db));
    simpl; auto.
  apply orb_false_iff in E. destruct E as (E & _). apply Nat.ltb_ge in E.
  apply Forall_app. split; [exact Hinv|]. constructor; [exact E | constructor].
Qed.

(** ** The reply of the completion service *)

Lemma fallback_no_outer_whitespace : no_outer_whitespace fallback.
Proof.
  split; intros c; vm_compute; intros [= <-]; reflexivity.
Qed.

Lemma shape_error_not_request (e : exn) :
  is_shape_error e = true -> is_RequestException e = false.
Proof.
  destruct e; simpl; intros H; try reflexivity; discriminate H.
Qed.

Lemma getitem_key_raises (v : json) (k : str) (e : exn) :
  getitem_key v k = Raise e -> is_shape_error e = true.
Proof.
  unfold getitem_key. destruct v; try (intros [= <-]; reflexivity).
  destruct (assoc k d); [discriminate | intros [= <-]; reflexivity].
Qed.

Lemma getitem_0_raises (v : json) (e : exn) :
  getitem_0 v = Raise e -> is_shape_error e = true.
Proof.
  unfold getitem_0.
  destruct v as [| | | |[|c s]|[|x l]|]; try discriminate;
    intros [= <-]; reflexivity.
Qed.

Lemma message_content_raises (j : json) (e : exn) :
  message_content j = Raise e -> is_shape_error e = true.
Proof.
  unfold message_content, bind.
  destruct (getitem_key j (lit "choices")) as [choices|e1] eqn:H1;
    [|intros [= <-]; exact (getitem_key_raises _ _ _ H1)].
  destruct (getitem_0 choices) as [choice|e2] eqn:H2;
    [|intros [= <-]; exact (getitem_0_raises _ _ H2)].
  destruct (getitem_key choice (lit "message")) as [message|e3] eqn:H3;
    [|intros [= <-]; exact (getitem_key_raises _ _ _ H3)].
  apply getitem_key_raises.
Qed.

Lemma call_strip_raises (v : json) (e : exn) :
  call_strip v = Raise e -> e = AttributeError.
Proof.
  destruct v; simpl; intros [= <-]; reflexivity.
Qed.

Lemma completion_call_returns (w : world) (ui s : str) :
  completion_call w ui = Return s ->
  exists r j c,
    post w ui = Return r /\ raise_for_status r = Return tt /\
    body r = Some j /\ message_content j = Return (JStr c) /\ s = strip c.
Proof.
  unfold completion_call, json_of.
  destruct (post w ui) as [r|] eqn:Hp; simpl; [|discriminate].
  destruct (raise_for_status r) as [[]|] eqn:Hs; simpl; [|discriminate].
  destruct (body r) as [j|] eqn:Hb; simpl; [|discriminate].
  destruct (message_content j) as [v|] eqn:Hm; simpl; [|discriminate].
  destruct v; simpl; try discriminate.
  intros [= <-]. exists r, j, s0. repeat split; reflexivity || assumption.
Qed.

Lemma get_xai_response_reply (w : world) (user_input reply : str) :
  get_xai_response w user_input = Return reply -> no_outer_whitespace reply.
Proof.
  unfold get_xai_response, try_except.
  destruct (completion_call w user_input) as [s|e] eqn:Hc.
  - intros [= <-].
    destruct (completion_call_returns w user_input s Hc)
      as (_ & _ & c & _ & _ & _ & _ & ->).
    apply strip_no_outer_whitespace.
  - destruct (is_RequestException e); [|discriminate].
    intros [= <-]. apply fallback_no_outer_whitespace.
Qed.

(** [get_xai_response] hands back either a reply that neither begins nor
    ends with whitespace (the stripped content or the fallback text), or an
    exception that is no request exception: a request exception never leaves
    it. *)
Theorem get_xai_response_outcomes (w : world) (user_input : str) :
  (exists reply,
      get_xai_response w user_input = Return reply /\
      no_outer_whitespace reply) \/
  (exists e,
      get_xai_response w user_input = Raise e /\
      is_RequestException e = false).
Proof.
  destruct (get_xai_response w user_input) as [reply|e] eqn:H.
  - left. exists reply. split; [reflexivity|].
    exact (get_xai_response_reply w user_input reply H).
  - right. exists e. split; [reflexivity|].
    unfold get_xai_response, try_except in H.
    destruct (completion_call w user_input) as [s|e']; [discriminate|].
    destruct (is_RequestException e') eqn:He; [discriminate|].
    injection H as <-. exact He.
Qed.

(** A payload that is JSON but does not hold a string at
    [choices[0].message.content] is not answered with the fallback: for a
    valid submission the handler ends in a [KeyError], [IndexError],
    [TypeError] or [AttributeError], and nothing is stored. *)
Theorem index_fails_on_unexpected_json
    (db : database) (req : request) (w : world) (u : User.t)
    (cat desc : str) (r : http_response) (j : json) :
  current_user db req = Some u ->
  method req = POST ->
  get "addiction_type" (form req) = Some cat -> cat <> [] ->
  get "description" (form req) = Some desc -> desc <> [] ->
  len cat <= 100 -> len desc <= 1000 ->
  post w (user_input_of cat desc) = Return r ->
  raise_for_status r = Return tt ->
  body r = Some j ->
  (forall c, message_content j <> Return (JStr c)) ->
  exists e, index db req w = Raise e /\ is_shape_error e = true.
Proof.
  intros Hu Hm Hc Hcne Hd Hdne Hlc Hld Hpost Hst Hb Hshape.
  rewrite (index_post_valid db req w u cat desc Hu Hm Hc Hcne Hd Hdne Hlc Hld).
  assert (Hcall : exists e, completion_call w (user_input_of cat desc) = Raise e
                            /\ is_shape_error e = true).
  { unfold completion_call, json_of. rewrite Hpost. simpl. rewrite Hst. simpl.
    rewrite Hb. simpl.
    destruct (message_content j) as [v|e] eqn:Hmc; simpl.
    - destruct (call_strip v) as [s|e] eqn:Hcs.
      + destruct v; simpl in Hcs; try discriminate.
        destruct (Hshape s0 eq_refl).
      + exists e. split; [reflexivity|].
        apply call_strip_raises in Hcs. subst e. reflexivity.
    - exists e. split; [reflexivity|].
      exact (message_content_raises j e Hmc). }
  destruct Hcall as (e & Hcall & He). exists e. split; [|exact He].
  unfold get_xai_response, try_except.
  rewrite Hcall, (shape_error_not_request e He). reflexivity.
Qed.

(** ** What a request does to the store *)

Lemma index_cases (db : database) (req : request) (w : world) (o : outcome) :
  index db req w = Return o ->
  db_after o = db \/
  exists u cat desc reply,
    current_user db req = Some u /\
    method req = POST /\
    get "addiction_type" (form req) = Some cat /\
    get "description" (form req) = Some desc /\
    1 <= len cat <= 100 /\ 1 <= len desc <= 1000 /\
    get_xai_response w (user_input_of cat desc) = Return reply /\
    o = entry_saved db req (new_entry db u cat desc reply w).
Proof.
  unfold index, login_required.
  destruct (current_user db req) as [u|] eqn:Hu;
    [|intros [= <-]; left; reflexivity].
  destruct (method req) eqn:Hm; try (intros [= <-]; left; reflexivity).
  destruct (negb (truthy (get "addiction_type" (form req)))
            || negb (truthy (get "description" (form req)))) eqn:Ht;
    [intros [= <-]; left; reflexivity|].
  apply orb_false_iff in Ht. destruct Ht as (Hc & Hd).
  apply negb_false_iff in Hc. apply negb_false_iff in Hd.
  destruct (truthy_inv _ Hc) as (cat & Hcat & _ & Hc1).
  destruct (truthy_inv _ Hd) as (desc & Hdesc & _ & Hd1).
  rewrite Hcat, Hdesc. cbn [value].
  destruct ((100 <? len cat) || (1000 <? len desc)) eqn:Hl;
    [intros [= <-]; left; reflexivity|].
  apply orb_false_iff in Hl. destruct Hl as (Hlc & Hld).
  apply Nat.ltb_ge in Hlc. apply Nat.ltb_ge in Hld.
  destruct (get_xai_response w (user_input_of cat desc)) as [reply|e] eqn:Hr;
    simpl; [|discriminate].
  intros [= <-]. right. exists u, cat, desc, reply.
  repeat split; assumption || reflexivity.
Qed.

Lemma register_entries (db : database) (req : request) (w : world) :
  entries (db_after (register db req w)) = entries db.
Proof.
  unfold register. destruct (method req); simpl; try reflexivity.
  destruct (negb (truthy (get "username" (form req)))
            || negb (truthy (get "password" (form req)))); simpl;
    try reflexivity.
  destruct ((len (value (get "username" (form req))) <? 3)
            || (len (value (get "password" (form req))) <? 6)); simpl;
    try reflexivity.
  destruct (first_by_username (value (get "username" (form req))) (users db));
    reflexivity.
Qed.

Lemma login_db (db : database) (req : request) : db_after (login db req) = db.
Proof.
  unfold login. destruct (method req); simpl; try reflexivity.
  destruct (negb (truthy (get "username" (form req)))
            || negb (truthy (get "password" (form req)))); simpl;
    try reflexivity.
  destruct (first_by_username (value (get "username" (form req))) (users db));
    simpl; try reflexivity.
  destruct (check_password_hash (User.password_hash t)
              (value (get "password" (form req)))); reflexivity.
Qed.

Lemma logout_db (db : database) (req : request) :
  db_after (logout db req) = db.
Proof.
  unfold logout, login_required. destruct (current_user db req); reflexivity.
Qed.

(** A request to [/] that returns leaves the users alone and either leaves
    the entries alone too or appends one entry: that of the user the session
    names, holding the submitted texts within their limits, a reply without
    outer whitespace and the time of the request.  No stored entry is ever
    changed or removed. *)
Theorem index_appends_at_most_one_own_entry
    (db : database) (req : request) (w : world) (o : outcome) :
  index db req w = Return o ->
  users (db_after o) = users db /\
  (entries (db_after o) = entries db \/
   exists u e,
     current_user db req = Some u /\
     entries (db_after o) = entries db ++ [e] /\
     Entry.user_id e = User.id u /\
     get "addiction_type" (form req) = Some (Entry.addiction_type e) /\
     get "description" (form req) = Some (Entry.description e) /\
     1 <= len (Entry.addiction_type e) <= 100 /\
     1 <= len (Entry.description e) <= 1000 /\
     no_outer_whitespace (Entry.response e) /\
     Entry.created_at e = now w).
Proof.
  intros H. destruct (index_cases db req w o H)
    as [-> | (u & cat & desc & reply & Hu & _ & Hc & Hd & Hlc & Hld & Hr & ->)].
  - split; [reflexivity | left; reflexivity].
  - split; [reflexivity|]. right.
    exists u, (new_entry db u cat desc reply w).
    split; [exact Hu|]. split; [reflexivity|]. split; [reflexivity|].
    split; [exact Hc|]. split; [exact Hd|]. split; [exact Hlc|].
    split; [exact Hld|]. split; [|reflexivity].
    exact (get_xai_response_reply w (user_input_of cat desc) reply Hr).
Qed.

(** ** Invariants of the store *)

Lemma register_users_incl (db : database) (req : request) (w : world)
    (u : User.t) :
  In u (users db) -> In u (users (db_after (register db req w))).
Proof.
  intros Hin.
  destruct (register_users_cases db req w) as [E | (x & E & _)]; rewrite E.
  - exact Hin.
  - apply in_or_app. left. exact Hin.
Qed.

(** Every entry belongs to a stored user: each of the four handlers keeps
    this true, whatever the request and whatever the completion service
    answers. *)
Theorem handlers_keep_owners_existing
    (db : database) (req : request) (w : world) :
  owners_exist db ->
  owners_exist (db_after (register db req w)) /\
  owners_exist (db_after (login db req)) /\
  owners_exist (db_after (logout db req)) /\
  (forall o, index db req w = Return o -> owners_exist (db_after o)).
Proof.
  intros Hinv. split; [|split; [|split]].
  - unfold owners_exist. rewrite register_entries.
    eapply Forall_impl; [|exact Hinv].
    intros e (u & Hin & Hid). exists u. split; [|exact Hid].
    now apply register_users_incl.
  - now rewrite login_db.
  - now rewrite logout_db.
  - intros o H. destruct (index_cases db req w o H)
      as [-> | (u & cat & desc & reply & Hu & _ & _ & _ & _ & _ & _ & ->)];
      [exact Hinv|].
    unfold owners_exist, entry_saved. cbn [db_after users entries].
    apply Forall_app. split; [exact Hinv|].
    constructor; [|constructor].
    unfold current_user in Hu.
    destruct (session_user_id req) as [uid|]; [|discriminate].
    apply load_user_in in Hu. destruct Hu as (Hin & _).
    exists u. split; [exact Hin | reflexivity].
Qed.

(** Every stored entry has a category of 1 to 100 characters and a
    description of 1 to 1000: each of the four handlers keeps this true. *)
Theorem handlers_keep_entries_within_limits
    (db : database) (req : request) (w : world) :
  entries_within_limits db ->
  entries_within_limits (db_after (register db req w)) /\
  entries_within_limits (db_after (login db req)) /\
  entries_within_limits (db_after (logout db req)) /\
  (forall o, index db req w = Return o -> entries_within_limits (db_after o)).
Proof.
  intros Hinv. split; [|split; [|split]].
  - unfold entries_within_limits. now rewrite register_entries.
  - now rewrite login_db.
  - now rewrite logout_db.
  - intros o H. destruct (index_cases db req w o H)
      as [-> | (u & cat & desc & reply & _ & _ & _ & _ & Hlc & Hld & _ & ->)];
      [exact Hinv|].
    unfold entries_within_limits, entry_saved. cbn [db_after entries].
    apply Forall_app. split; [exact Hinv|].
    constructor; [|constructor]. split; [exact Hlc | exact Hld].
Qed.

(** ** Sessions *)

Lemma index_get (db : database) (req : request) (w : world) (u : User.t) :
  current_user db req = Some u ->
  method req = GET ->
  index db req w =
    Return (unchanged db req []
              (Render (lit "index.html")
                 [("entries"%string,
                   order_by_created_at_desc
                     (filter_by_user_id (User.id u) (entries db)))])).
Proof.
  intros Hu Hm. unfold index, login_required. rewrite Hu, Hm. reflexivity.
Qed.

(** After a login that succeeds, the next request of the same browser, the
    one that carries the session the login left, reaches the listing: it is
    answered with the page of exactly the entries of the user who logged
    in. *)
Theorem login_then_listing
    (db : database) (req req' : request) (w : world) (u p : str)
    (user : User.t) :
  method req = POST ->
  get "username" (form req) = Some u -> u <> [] ->
  get "password" (form req) = Some p -> p <> [] ->
  first_by_username u (users db) = Some user ->
  check_password_hash (User.password_hash user) p = true ->
  session_user_id req' = session_after (login db req) ->
  method req' = GET ->
  exists es,
    index (db_after (login db req)) req' w =
      Return (unchanged db req' []
                (Render (lit "index.html") [("entries"%string, es)])) /\
    (forall e, In e es <->
               In e (entries db) /\ Entry.user_id e = User.id user).
Proof.
  intros Hm Hu Hune Hp Hpne Hf Hc Hs Hm'.
  rewrite login_db.
  rewrite (login_success db req u p user Hm Hu Hune Hp Hpne Hf Hc) in Hs.
  cbn [session_after] in Hs.
  apply first_by_username_in in Hf. destruct Hf as (Hin & _).
  destruct (load_user_found db user Hin) as (u' & Hl & Hid).
  assert (Hcur : current_user db req' = Some u').
  { unfold current_user. rewrite Hs. exact Hl. }
  rewrite (index_get db req' w u' Hcur Hm'). eexists. split; [reflexivity|].
  intros e. rewrite Hid.
  pose proof (order_by_perm (filter_by_user_id (User.id user) (entries db)))
    as HP.
  split.
  - intros H. apply (Permutation_in _ HP) in H. apply filter_In in H.
    destruct H as (H & Heq). apply Nat.eqb_eq in Heq. split; assumption.
  - intros (H & Heq). apply (Permutation_in _ (Permutation_sym HP)).
    apply filter_In. split; [exact H | now apply Nat.eqb_eq].
Qed.


(** ** The listing after a submission *)

Lemma order_by_newest_last (l : list Entry.t) (e : Entry.t) :
  (forall x, In x l -> (Entry.created_at x < Entry.created_at e)%Z) ->
  order_by_created_at_desc (l ++ [e]) = e :: order_by_created_at_desc l.
Proof.
  unfold order_by_created_at_desc. rewrite fold_right_app. simpl.
  induction l as [|x l IH]; intros Hold; simpl; [reflexivity|].
  rewrite IH by (intros y Hy; apply Hold; right; exact Hy). simpl.
  replace (Entry.created_at e <? Entry.created_at x)%Z with false;
    [reflexivity|].
  symmetry. apply Z.ltb_ge. specialize (Hold x (or_introl eq_refl)). lia.
Qed.

Lemma filter_by_user_id_app (uid : nat) (l : list Entry.t) (e : Entry.t) :
  filter_by_user_id uid (l ++ [e]) =
  filter_by_user_id uid l
  ++ (if Nat.eqb (Entry.user_id e) uid then [e] else []).
Proof.
  unfold filter_by_user_id. rewrite filter_app. reflexivity.
Qed.

(** A submission shows up at the top of its author's listing: when the clock
    of the request is ahead of every stored timestamp and the reply call
    returns, the listing that the same session is given next is the new
    entry followed by the listing as it was. *)
Theorem submission_heads_own_listing
    (db : database) (req req' : request) (w w' : world) (u : User.t)
    (cat desc reply : str) :
  current_user db req = Some u ->
  method req = POST ->
  get "addiction_type" (form req) = Some cat -> cat <> [] ->
  get "description" (form req) = Some desc -> desc <> [] ->
  len cat <= 100 -> len desc <= 1000 ->
  get_xai_response w (user_input_of cat desc) = Return reply ->
  (forall e, In e (entries db) -> (Entry.created_at e < now w)%Z) ->
  session_user_id req' = session_user_id req ->
  method req' = GET ->
  exists o,
    index db req w = Return o /\
    index (db_after o) req' w' =
      Return (unchanged (db_after o) req' []
                (Render (lit "index.html")
                   [("entries"%string,
                     new_entry db u cat desc reply w
                     :: order_by_created_at_desc
                          (filter_by_user_id (User.id u) (entries db)))])).
Proof.
  intros Hu Hm Hc Hcne Hd Hdne Hlc Hld Hr Hold Hs Hm'.
  rewrite (index_post_valid db req w u cat desc Hu Hm Hc Hcne Hd Hdne Hlc Hld).
  rewrite Hr. simpl. eexists. split; [reflexivity|].
  assert (Hcur : current_user
                   (db_after (entry_saved db req
                                (new_entry db u cat desc reply w))) req'
                 = Some u).
  { unfold current_user in *. rewrite Hs. exact Hu. }
  rewrite (index_get _ req' w' u Hcur Hm'). cbn [entry_saved db_after entries].
  rewrite filter_by_user_id_app. cbn [new_entry Entry.user_id].
  rewrite Nat.eqb_refl, order_by_newest_last; [reflexivity|].
  intros x Hx. unfold filter_by_user_id in Hx. apply filter_In in Hx.
  cbn [Entry.created_at]. apply Hold. apply Hx.
Qed.

(** What one user submits never shows in the listing of another: whatever a
    request of user [b] to [/] does, the page of entries that user [a] is
    given afterwards lists what it listed before. *)
Theorem submission_leaves_other_listings
    (db : database) (req req' : request) (w w' : world) (a b : User.t)
    (o : outcome) :
  current_user db req = Some b ->
  index db req w = Return o ->
  current_user db req' = Some a ->
  User.id a <> User.id b ->
  method req' = GET ->
  exists es,
    index db req' w' =
      Return (unchanged db req' []
                (Render (lit "index.html") [("entries"%string, es)])) /\
    index (db_after o) req' w' =
      Return (unchanged (db_after o) req' []
                (Render (lit "index.html") [("entries"%string, es)])).
Proof.
  intros Hb H Ha Hne Hm'.
  rewrite (index_get db req' w' a Ha Hm'). eexists. split; [reflexivity|].
  destruct (index_cases db req w o H)
    as [-> | (u & cat & desc & reply & Hu & _ & _ & _ & _ & _ & _ & ->)].
  - apply (index_get db req' w' a Ha Hm').
  - assert (u = b) by congruence. subst u.
    assert (Hcur : current_user
                     (db_after (entry_saved db req
                                  (new_entry db b cat desc reply w))) req'
                   = Some a).
    { unfold current_user in *. exact Ha. }
    rewrite (index_get _ req' w' a Hcur Hm').
    cbn [entry_saved db_after entries].
    rewrite filter_by_user_id_app. cbn [new_entry Entry.user_id].
    replace (Nat.eqb (User.id b) (User.id a)) with false.
    + rewrite app_nil_r. reflexivity.
    + symmetry. apply Nat.eqb_neq. intros E. apply Hne. symmetry. exact E.
Qed.

(** A request to [/] that is anonymous, or is no POST, or fails validation
    is answered without the completion service: the outcome is the same for
    every answer the service could give, and the store is unchanged. *)
Theorem index_without_completion_service (db : database) (req : request) :
  current_user db req = None \/
  method req <> POST \/
  truthy (get "addiction_type" (form req)) = false \/
  truthy (get "description" (form req)) = false \/
  100 < len (value (get "addiction_type" (form req))) \/
  1000 < len (value (get "description" (form req))) ->
  exists o, db_after o = db /\ forall w, index db req w = Return o.
Proof.
  intros H. unfold index, login_required.
  destruct (current_user db req) as [u|] eqn:Hu;
    [|eexists; split; [|intros w; reflexivity]; reflexivity].
  destruct (method req) eqn:Hm;
    try (eexists; split; [|intros w; reflexivity]; reflexivity).
  destruct (negb (truthy (get "addiction_type" (form req)))
            || negb (truthy (get "description" (form req)))) eqn:Ht;
    [eexists; split; [|intros w; reflexivity]; reflexivity|].
  destruct ((100 <? len (value (get "addiction_type" (form req))))
            || (1000 <? len (value (get "description" (form req))))) eqn:Hl;
    [eexists; split; [|intros w; reflexivity]; reflexivity|].
  exfalso.
  apply orb_false_iff in Ht. destruct Ht as (Ht1 & Ht2).
  apply negb_false_iff in Ht1. apply negb_false_iff in Ht2.
  apply orb_false_iff in Hl. destruct Hl as (Hl1 & Hl2).
  apply Nat.ltb_ge in Hl1. apply Nat.ltb_ge in Hl2.
  destruct H as [H | [H | [H | [H | [H | H]]]]];
    try discriminate; try congruence; try lia.
Qed.

(** ** Start-up, in full *)

(** The start-up block completes exactly when the API key is set and table
    creation returns; without the key it stops with a [ValueError], whatever
    table creation would have done. *)
Theorem startup_completes_iff (XAI_API_KEY : option str)
    (create_all : result unit) :
  (startup XAI_API_KEY create_all = Return tt <->
   truthy XAI_API_KEY = true /\ create_all = Return tt) /\
  (truthy XAI_API_KEY = false ->
   startup XAI_API_KEY create_all = Raise ValueError).
Proof.
  unfold startup, try_except. destruct (truthy XAI_API_KEY); simpl.
  - split; [|discriminate]. split.
    + destruct create_all as [[]|e]; [auto|].
      destruct (is_Exception e); discriminate.
    + intros (_ & ->). reflexivity.
  - split; [|reflexivity]. split; [discriminate | intros (H & _); discriminate].
Qed.

(** ** What the handlers never do *)

(** [register] never opens a session and never touches the entries; the
    users it found stay as they are, in place, and at most one is added
    after them. *)
Theorem register_only_appends (db : database) (req : request) (w : world) :
  session_after (register db req w) = session_user_id req /\
  entries (db_after (register db req w)) = entries db /\
  exists added,
    users (db_after (register db req w)) = users db ++ added /\
    List.length added <= 1.
Proof.
  split; [|split; [apply register_entries|]].
  - unfold register. destruct (method req); simpl; try reflexivity.
    destruct (negb (truthy (get "username" (form req)))
              || negb (truthy (get "password" (form req)))); simpl;
      try reflexivity.
    destruct ((len (value (get "username" (form req))) <? 3)
              || (len (value (get "password" (form req))) <? 6)); simpl;
      try reflexivity.
    destruct (first_by_username (value (get "username" (form req)))
                (users db)); reflexivity.
  - destruct (register_users_cases db req w) as [E | (u & E & _)]; rewrite E.
    + exists []. rewrite app_nil_r. split; [reflexivity | simpl; lia].
    + exists [u]. split; [reflexivity | simpl; lia].
Qed.


End App.

(** ** The theorems at concrete requests *)

Lemma index_stores_fallback_on_request_exception_witness :
  index Demo.db0 (Demo.submission (lit "alcohol") (lit "a hard week"))
    (Demo.world_of (Return Demo.unavailable))
  = Return
      (entry_saved Demo.db0
         (Demo.submission (lit "alcohol") (lit "a hard week"))
         (new_entry Demo.db0 Demo.alice (lit "alcohol") (lit "a hard week")
            fallback (Demo.world_of (Return Demo.unavailable)))).
Proof.
  apply (index_stores_fallback_on_request_exception
           Demo.db0 (Demo.submission (lit "alcohol") (lit "a hard week"))
           (Demo.world_of (Return Demo.unavailable)) Demo.alice
           (lit "alcohol") (lit "a hard week") HTTPError);
    try reflexivity; try discriminate; simpl; lia.
Defined.

Lemma login_next_followed_only_if_same_origin_witness :
  resp (login Demo.check_password_hash Demo.urlparse Demo.urljoin Demo.db0
          (Demo.credentials (lit "alice") (lit "secret1")
             [Demo.field "next" (lit "http://evil.example/x")]))
  = Redirect (url_for ep_index).
Proof.
  refine (proj2 (proj2 (proj2
    (login_next_followed_only_if_same_origin
       Demo.check_password_hash Demo.urlparse Demo.urljoin Demo.db0
       (Demo.credentials (lit "alice") (lit "secret1")
          [Demo.field "next" (lit "http://evil.example/x")])
       (lit "alice") (lit "secret1") (lit "http://evil.example/x")
       Demo.alice eq_refl eq_refl _ eq_refl _ eq_refl eq_refl eq_refl))) _).
  - discriminate.
  - discriminate.
  - unfold external_host. vm_compute. discriminate.
Defined.

Lemma login_failure_messages_witness :
  login Demo.check_password_hash Demo.urlparse Demo.urljoin Demo.db0
    (Demo.credentials (lit "alice") (lit "secret2") [])
  = login Demo.check_password_hash Demo.urlparse Demo.urljoin Demo.db0
      (Demo.credentials (lit "carol") (lit "secret2") []).
Proof.
  refine (eq_trans
    (proj2 (login_failure_messages
              Demo.check_password_hash Demo.urlparse Demo.urljoin Demo.db0
              (Demo.credentials (lit "alice") (lit "secret2") []) eq_refl)
       (lit "alice") (lit "secret2") eq_refl _ eq_refl _
       (or_intror (ex_intro _ Demo.alice (conj eq_refl eq_refl))))
    (eq_sym
       (proj2 (login_failure_messages
                 Demo.check_password_hash Demo.urlparse Demo.urljoin Demo.db0
                 (Demo.credentials (lit "carol") (lit "secret2") []) eq_refl)
          (lit "carol") (lit "secret2") eq_refl _ eq_refl _
          (or_introl eq_refl))));
    discriminate.
Defined.

Lemma startup_reraises_witness :
  startup (Some (lit "xai-key")) (Raise OperationalError)
  = Raise OperationalError.
Proof.
  apply (startup_reraises (Some (lit "xai-key")) OperationalError).
  reflexivity.
Defined.

Lemma register_invalid_creates_no_user_witness :
  db_after (register Demo.generate_password_hash Demo.db0
              (Demo.credentials (lit "al") (lit "secret3") []) (Demo.world_of (Raise Timeout)))
  = Demo.db0 /\
  users (db_after (register Demo.generate_password_hash Demo.db0
                     (Demo.credentials (lit "al") (lit "secret3") [])
                     (Demo.world_of (Raise Timeout))))
  = users Demo.db0.
Proof.
  apply (register_invalid_creates_no_user Demo.generate_password_hash Demo.db0
           (Demo.credentials (lit "al") (lit "secret3") [])
           (Demo.world_of (Raise Timeout))).
  right. right. left. simpl. lia.
Defined.

Lemma register_keeps_usernames_unique_witness :
  register_rejected Demo.db0
    (register Demo.generate_password_hash Demo.db0
       (Demo.credentials (lit "alice") (lit "another1") [])
       (Demo.world_of (Raise Timeout))) /\
  NoDup (List.map User.username
           (users (db_after
              (register Demo.generate_password_hash Demo.db0
                 (Demo.credentials (lit "carol") (lit "secret3") [])
                 (Demo.world_of (Raise Timeout)))))).
Proof.
  split.
  - refine (proj1 (proj1 (register_keeps_usernames_unique
                            Demo.generate_password_hash)
                     Demo.db0
                     (Demo.credentials (lit "alice") (lit "another1") [])
                     (Demo.world_of (Raise Timeout)) (lit "alice")
                     eq_refl eq_refl _)).
    simpl. left. reflexivity.
  - refine (proj2 (register_keeps_usernames_unique
                     Demo.generate_password_hash)
              Demo.db0 (Demo.credentials (lit "carol") (lit "secret3") [])
              (Demo.world_of (Raise Timeout)) _).
    simpl. repeat constructor; simpl; intros H;
      repeat (destruct H as [H | H]; [discriminate H|]); exact H.
Defined.

Lemma register_accepts_any_length_witness :
  register Demo.generate_password_hash Demo.db0
    (Demo.credentials (repeat_char "a" 4000) (repeat_char "z" 4500) [])
    (Demo.world_of (Raise Timeout))
  = {| db_after :=
         {| users :=
              users Demo.db0 ++
              [ {| User.id := 3;
                   User.username := repeat_char "a" 4000;
                   User.password_hash :=
                     Demo.generate_password_hash (lit "pe")
                       (repeat_char "z" 4500) |} ];
            entries := entries Demo.db0 |};
       session_after := None;
       flashes := [flash "Registration successful! Please log in." "success"];
       resp := Redirect (url_for ep_login) |}.
Proof.
  apply (register_accepts_any_length Demo.generate_password_hash Demo.db0
           (Demo.credentials (repeat_char "a" 4000) (repeat_char "z" 4500) [])
           (Demo.world_of (Raise Timeout))
           (repeat_char "a" 4000) (repeat_char "z" 4500)).
  - reflexivity.
  - reflexivity.
  - reflexivity.
  - vm_compute. lia.
  - vm_compute. lia.
  - apply first_by_username_none. vm_compute. reflexivity.
Defined.

Lemma index_length_limits_witness :
  index Demo.db0 (Demo.submission (lit "alcohol") (repeat_char "x" 1000))
    (Demo.world_of (Return (Demo.completion (lit "  Take care. "))))
  = Return
      (entry_saved Demo.db0
         (Demo.submission (lit "alcohol") (repeat_char "x" 1000))
         (new_entry Demo.db0 Demo.alice (lit "alcohol") (repeat_char "x" 1000)
            (lit "Take care.")
            (Demo.world_of (Return (Demo.completion (lit "  Take care. ")))))).
Proof.
  refine (proj1 (index_length_limits Demo.db0
                   (Demo.submission (lit "alcohol") (repeat_char "x" 1000))
                   (Demo.world_of
                      (Return (Demo.completion (lit "  Take care. "))))
                   Demo.alice eq_refl eq_refl)
            (lit "alcohol") (repeat_char "x" 1000) (lit "Take care.")
            eq_refl _ eq_refl _ _ _).
  - discriminate.
  - simpl. lia.
  - vm_compute. reflexivity.
  - vm_compute. reflexivity.
Defined.

Lemma index_lists_own_entries_newest_first_witness :
  exists es,
    index Demo.db0 (Demo.request_of GET [] [] (Some 1))
      (Demo.world_of (Raise Timeout))
    = Return (unchanged Demo.db0 (Demo.request_of GET [] [] (Some 1)) []
                (Render (lit "index.html") [("entries"%string, es)])) /\
    Permutation es
      (filter (fun e => Nat.eqb (Entry.user_id e) (User.id Demo.alice))
         (entries Demo.db0)) /\
    (forall e, In e es <->
               In e (entries Demo.db0) /\
               Entry.user_id e = User.id Demo.alice) /\
    newest_first es.
Proof.
  apply (index_lists_own_entries_newest_first Demo.db0
           (Demo.request_of GET [] [] (Some 1))
           (Demo.world_of (Raise Timeout)) Demo.alice);
    reflexivity.
Defined.

Lemma index_stores_stripped_content_witness :
  index Demo.db0 (Demo.submission (lit "alcohol") (lit "a hard week"))
    (Demo.world_of
       (Return (Demo.completion (lit "  Take care. " ++ [10%N]))))
  = Return
      (entry_saved Demo.db0
         (Demo.submission (lit "alcohol") (lit "a hard week"))
         (new_entry Demo.db0 Demo.alice (lit "alcohol") (lit "a hard week")
            (lit "Take care.")
            (Demo.world_of
               (Return (Demo.completion (lit "  Take care. " ++ [10%N])))))).
Proof.
  refine (proj1 (index_stores_stripped_content Demo.db0
                   (Demo.submission (lit "alcohol") (lit "a hard week"))
                   (Demo.world_of
                      (Return (Demo.completion (lit "  Take care. " ++ [10%N]))))
                   Demo.alice (lit "alcohol") (lit "a hard week")
                   (lit "  Take care. " ++ [10%N])
                   (Demo.completion (lit "  Take care. " ++ [10%N]))
                   _ eq_refl eq_refl eq_refl _ eq_refl _ _ _
                   eq_refl eq_refl eq_refl eq_refl)).
  - discriminate.
  - discriminate.
  - simpl. lia.
  - simpl. lia.
Defined.

(** ** Where the code departs from the specification *)

(** C3 does not hold as stated: a login attempt without a password fails
    with the message that both fields are required, not with the message
    that the username or the password is invalid. *)
Lemma login_missing_password_message :
  session_after
    (login Demo.check_password_hash Demo.urlparse Demo.urljoin Demo.db0
       (Demo.request_of POST [Demo.field "username" (lit "alice")] [] None))
  = None /\
  flashes
    (login Demo.check_password_hash Demo.urlparse Demo.urljoin Demo.db0
       (Demo.request_of POST [Demo.field "username" (lit "alice")] [] None))
  = [flash "Username and password are required." "error"] /\
  flashes
    (login Demo.check_password_hash Demo.urlparse Demo.urljoin Demo.db0
       (Demo.request_of POST [Demo.field "username" (lit "alice")] [] None))
  <> [flash "Invalid username or password." "error"].
Proof.
  repeat split. vm_compute. discriminate.
Qed.

(** C4 does not hold as stated: a description of exactly 1000 characters
    with a category of at most 100 characters is rejected, and nothing is
    stored, when the category is empty. *)
Lemma index_rejects_empty_category :
  len [] <= 100 /\
  len (repeat_char "x" 1000) = 1000 /\
  index Demo.db0 (Demo.submission [] (repeat_char "x" 1000))
    (Demo.world_of (Return (Demo.completion (lit "Take care."))))
  = Return
      (unchanged Demo.db0 (Demo.submission [] (repeat_char "x" 1000))
         [flash "Addiction type and description are required." "error"]
         (Redirect (url_for ep_index))).
Proof.
  repeat split. simpl. lia.
Qed.

(** ** The further properties at concrete requests *)

Lemma strip_prefix_app (p t : str) : Demo.strip_prefix p (p ++ t) = Some t.
Proof.
  induction p as [|a p IH]; simpl; [reflexivity|].
  rewrite N.eqb_refl. exact IH.
Qed.

Lemma demo_hash_checks (s q : str) :
  Demo.check_password_hash (Demo.generate_password_hash s q) q = true.
Proof.
  unfold Demo.check_password_hash, Demo.generate_password_hash.
  rewrite (rev_app_distr s (lit "$" ++ rev q)), strip_prefix_app.
  reflexivity.
Qed.

Lemma register_then_login_witness :
  session_after
    (login Demo.check_password_hash Demo.urlparse Demo.urljoin
       (db_after (register Demo.generate_password_hash Demo.db0
                    (Demo.credentials (lit "carol") (lit "secret3") [])
                    (Demo.world_of (Raise Timeout))))
       (Demo.credentials (lit "carol") (lit "secret3") []))
  = Some 3 /\
  flashes
    (login Demo.check_password_hash Demo.urlparse Demo.urljoin
       (db_after (register Demo.generate_password_hash Demo.db0
                    (Demo.credentials (lit "carol") (lit "secret3") [])
                    (Demo.world_of (Raise Timeout))))
       (Demo.credentials (lit "carol") (lit "secret3") []))
  = [].
Proof.
  refine (register_then_login
            Demo.generate_password_hash Demo.check_password_hash
            Demo.urlparse Demo.urljoin Demo.db0
            (Demo.credentials (lit "carol") (lit "secret3") [])
            (Demo.credentials (lit "carol") (lit "secret3") [])
            (Demo.world_of (Raise Timeout)) (lit "carol") (lit "secret3")
            demo_hash_checks eq_refl eq_refl eq_refl _ _ _
            eq_refl eq_refl eq_refl).
  - simpl. lia.
  - simpl. lia.
  - apply first_by_username_none. reflexivity.
Defined.

Lemma register_same_username_twice_witness :
  List.length
    (users (db_after (register Demo.generate_password_hash Demo.db0
                        (Demo.credentials (lit "carol") (lit "secret3") [])
                        (Demo.world_of (Raise Timeout)))))
  = S (List.length (users Demo.db0)) /\
  register_rejected
    (db_after (register Demo.generate_password_hash Demo.db0
                 (Demo.credentials (lit "carol") (lit "secret3") [])
                 (Demo.world_of (Raise Timeout))))
    (register Demo.generate_password_hash
       (db_after (register Demo.generate_password_hash Demo.db0
                    (Demo.credentials (lit "carol") (lit "secret3") [])
                    (Demo.world_of (Raise Timeout))))
       (Demo.credentials (lit "carol") (lit "another9") [])
       (Demo.world_of (Raise ConnectionError))).
Proof.
  refine (register_same_username_twice
            Demo.generate_password_hash Demo.db0
            (Demo.credentials (lit "carol") (lit "secret3") [])
            (Demo.credentials (lit "carol") (lit "another9") [])
            (Demo.world_of (Raise Timeout))
            (Demo.world_of (Raise ConnectionError))
            (lit "carol") (lit "secret3")
            eq_refl eq_refl eq_refl _ _ _ eq_refl eq_refl).
  - simpl. lia.
  - simpl. lia.
  - apply first_by_username_none. reflexivity.
Defined.

Lemma demo_usernames_long_enough : usernames_long_enough Demo.db0.
Proof.
  unfold usernames_long_enough. simpl.
  repeat (apply Forall_cons; [simpl; lia|]). apply Forall_nil.
Defined.

Lemma demo_owners_exist : owners_exist Demo.db0.
Proof.
  unfold owners_exist. simpl.
  apply Forall_cons; [exists Demo.alice; simpl; auto|].
  apply Forall_cons; [exists Demo.bob; simpl; auto|].
  apply Forall_cons; [exists Demo.alice; simpl; auto|].
  apply Forall_nil.
Defined.

Lemma demo_entries_within_limits : entries_within_limits Demo.db0.
Proof.
  unfold entries_within_limits. simpl.
  repeat (apply Forall_cons; [simpl; lia|]). apply Forall_nil.
Defined.

Lemma register_keeps_usernames_long_enough_witness :
  usernames_long_enough
    (db_after (register Demo.generate_password_hash Demo.db0
                 (Demo.credentials (lit "carol") (lit "secret3") [])
                 (Demo.world_of (Raise Timeout)))).
Proof.
  exact (register_keeps_usernames_long_enough
           Demo.generate_password_hash Demo.db0
           (Demo.credentials (lit "carol") (lit "secret3") [])
           (Demo.world_of (Raise Timeout)) demo_usernames_long_enough).
Defined.

Lemma index_fails_on_unexpected_json_witness :
  exists e,
    index Demo.db0 (Demo.submission (lit "alcohol") (lit "a hard week"))
      (Demo.world_of
         (Return {| status_code := 200; body := Some (JDict []) |}))
    = Raise e /\
    is_shape_error e = true.
Proof.
  refine (index_fails_on_unexpected_json Demo.db0
            (Demo.submission (lit "alcohol") (lit "a hard week"))
            (Demo.world_of
               (Return {| status_code := 200; body := Some (JDict []) |}))
            Demo.alice (lit "alcohol") (lit "a hard week")
            {| status_code := 200; body := Some (JDict []) |} (JDict [])
            eq_refl eq_refl eq_refl _ eq_refl _ _ _
            eq_refl eq_refl eq_refl _).
  - discriminate.
  - discriminate.
  - simpl. lia.
  - simpl. lia.
  - intros c. discriminate.
Defined.

Lemma index_appends_at_most_one_own_entry_witness :
  exists o,
    index Demo.db0 (Demo.submission (lit "alcohol") (lit "a hard week"))
      (Demo.world_of (Return (Demo.completion (lit " Take care. "))))
    = Return o /\
    List.length (entries (db_after o)) = 4 /\
    users (db_after o) = users Demo.db0.
Proof.
  eexists. split; [reflexivity|]. split; [reflexivity|].
  refine (proj1 (index_appends_at_most_one_own_entry Demo.db0
                   (Demo.submission (lit "alcohol") (lit "a hard week"))
                   (Demo.world_of
                      (Return (Demo.completion (lit " Take care. "))))
                   _ eq_refl)).
Defined.

Lemma handlers_keep_owners_existing_witness :
  owners_exist
    (db_after (register Demo.generate_password_hash Demo.db0
                 (Demo.credentials (lit "carol") (lit "secret3") [])
                 (Demo.world_of (Raise Timeout)))).
Proof.
  exact (proj1 (handlers_keep_owners_existing
                  Demo.generate_password_hash Demo.check_password_hash
                  Demo.urlparse Demo.urljoin Demo.db0
                  (Demo.credentials (lit "carol") (lit "secret3") [])
                  (Demo.world_of (Raise Timeout)) demo_owners_exist)).
Defined.

Lemma handlers_keep_entries_within_limits_witness :
  exists o,
    index Demo.db0 (Demo.submission (lit "alcohol") (lit "a hard week"))
      (Demo.world_of (Return Demo.unavailable))
    = Return o /\
    entries_within_limits (db_after o).
Proof.
  eexists. split; [reflexivity|].
  refine (proj2 (proj2 (proj2
    (handlers_keep_entries_within_limits
       Demo.generate_password_hash Demo.check_password_hash
       Demo.urlparse Demo.urljoin Demo.db0
       (Demo.submission (lit "alcohol") (lit "a hard week"))
       (Demo.world_of (Return Demo.unavailable))
       demo_entries_within_limits))) _ eq_refl).
Defined.

Lemma login_then_listing_witness :
  exists es,
    index
      (db_after (login Demo.check_password_hash Demo.urlparse Demo.urljoin
                   Demo.db0
                   (Demo.credentials (lit "alice") (lit "secret1") [])))
      (Demo.request_of GET [] [] (Some 1)) (Demo.world_of (Raise Timeout))
    = Return (unchanged Demo.db0 (Demo.request_of GET [] [] (Some 1)) []
                (Render (lit "index.html") [("entries"%string, es)])) /\
    (forall e, In e es <->
               In e (entries Demo.db0) /\
               Entry.user_id e = User.id Demo.alice).
Proof.
  refine (login_then_listing
            Demo.check_password_hash Demo.urlparse Demo.urljoin Demo.db0
            (Demo.credentials (lit "alice") (lit "secret1") [])
            (Demo.request_of GET [] [] (Some 1))
            (Demo.world_of (Raise Timeout))
            (lit "alice") (lit "secret1") Demo.alice
            eq_refl eq_refl _ eq_refl _ eq_refl eq_refl eq_refl eq_refl);
    discriminate.
Defined.


Lemma submission_heads_own_listing_witness :
  exists o,
    index Demo.db0 (Demo.submission (lit "alcohol") (lit "a hard week"))
      (Demo.world_of (Return (Demo.completion (lit " Take care. "))))
    = Return o /\
    index (db_after o) (Demo.request_of GET [] [] (Some 1))
      (Demo.world_of (Raise Timeout))
    = Return
        (unchanged (db_after o) (Demo.request_of GET [] [] (Some 1)) []
           (Render (lit "index.html")
              [("entries"%string,
                new_entry Demo.db0 Demo.alice (lit "alcohol")
                  (lit "a hard week") (lit "Take care.")
                  (Demo.world_of
                     (Return (Demo.completion (lit " Take care. "))))
                :: order_by_created_at_desc
                     (filter_by_user_id (User.id Demo.alice)
                        (entries Demo.db0)))])).
Proof.
  refine (submission_heads_own_listing Demo.db0
            (Demo.submission (lit "alcohol") (lit "a hard week"))
            (Demo.request_of GET [] [] (Some 1))
            (Demo.world_of (Return (Demo.completion (lit " Take care. "))))
            (Demo.world_of (Raise Timeout))
            Demo.alice (lit "alcohol") (lit "a hard week") (lit "Take care.")
            eq_refl eq_refl eq_refl _ eq_refl _ _ _ eq_refl _
            eq_refl eq_refl).
  - discriminate.
  - discriminate.
  - simpl. lia.
  - simpl. lia.
  - simpl. intros e [<- | [<- | [<- | []]]]; simpl; lia.
Defined.

Lemma submission_leaves_other_listings_witness :
  exists es,
    index Demo.db0 (Demo.request_of GET [] [] (Some 2))
      (Demo.world_of (Raise Timeout))
    = Return (unchanged Demo.db0 (Demo.request_of GET [] [] (Some 2)) []
                (Render (lit "index.html") [("entries"%string, es)])) /\
    index
      (db_after
         (entry_saved Demo.db0
            (Demo.submission (lit "alcohol") (lit "a hard week"))
            (new_entry Demo.db0 Demo.alice (lit "alcohol")
               (lit "a hard week") fallback
               (Demo.world_of (Return Demo.unavailable)))))
      (Demo.request_of GET [] [] (Some 2)) (Demo.world_of (Raise Timeout))
    = Return
        (unchanged
           (db_after
              (entry_saved Demo.db0
                 (Demo.submission (lit "alcohol") (lit "a hard week"))
                 (new_entry Demo.db0 Demo.alice (lit "alcohol")
                    (lit "a hard week") fallback
                    (Demo.world_of (Return Demo.unavailable)))))
           (Demo.request_of GET [] [] (Some 2)) []
           (Render (lit "index.html") [("entries"%string, es)])).
Proof.
  refine (submission_leaves_other_listings Demo.db0
            (Demo.submission (lit "alcohol") (lit "a hard week"))
            (Demo.request_of GET [] [] (Some 2))
            (Demo.world_of (Return Demo.unavailable))
            (Demo.world_of (Raise Timeout))
            Demo.bob Demo.alice _ eq_refl eq_refl eq_refl _ eq_refl).
  simpl. discriminate.
Defined.

Lemma index_without_completion_service_witness :
  exists o,
    db_after o = Demo.db0 /\
    forall w,
      index Demo.db0
        (Demo.request_of POST
           [Demo.field "addiction_type" (lit "alcohol");
            Demo.field "description" (lit "a hard week")] [] None) w
      = Return o.
Proof.
  refine (index_without_completion_service Demo.db0
            (Demo.request_of POST
               [Demo.field "addiction_type" (lit "alcohol");
                Demo.field "description" (lit "a hard week")] [] None) _).
  left. reflexivity.
Defined.

